(** * The [init] command of mevn-cli: a shallow embedding and its properties

    Source: [src/commands/basic/init.js].

    The command is sequential glue around three external tools: the prompt
    library, the [git] binary run as a subprocess, and the file system.  The
    embedding keeps that shape: the JavaScript built-ins the command relies on
    ([String.prototype.split], [Array.prototype.join], [find], [indexOf],
    indexed assignment, [JSON.parse], [JSON.stringify], the UTF-8 decoding
    of a file read as text) are written out as executable functions, the external tools are fields of an environment
    record, and the three functions of the module ([makeInitialCommit],
    [showCommandsList], [fetchTemplate], [initializeProject]) are programs in
    a small state monad whose outcomes are normal completion, a thrown
    exception, or [process.exit]. *)

From Stdlib Require Import String Ascii ZArith List Lia Bool.
From stdpp Require Import base option list gmap strings.

Local Open Scope string_scope.
Local Open Scope list_scope.
Local Open Scope Z_scope.

(** ** Characters that cannot be written inside a literal *)

Definition LF : ascii := "010"%char.
Definition DQ : ascii := "034"%char.
Definition BSL : ascii := "092"%char.

(** [quote s] is [s] between two double quotes, as in the template literal
    [`"${s}"`]. *)
Definition quote (s : string) : string := String DQ (s ++ String DQ "").

(** ** UTF-8

    A JavaScript string is represented by the bytes of its UTF-8 encoding,
    and a file by its bytes.  The bytes of a file that comes from outside
    need not be the encoding of a string: reading such a file with the
    encoding ['utf8'] decodes it, and every byte sequence that is not
    well-formed UTF-8 becomes U+FFFD, whose encoding is [EF BF BD]. *)
Module Utf8.

(** The encoding of U+FFFD. *)
Definition replacement : string :=
  String "239" (String "191" (String "189" EmptyString)).

(** What the first byte of a sequence announces: a character of one byte; a
    sequence of [needed] more bytes, the next of which lies between [lower]
    and [upper]; or a byte that starts nothing. *)
Inductive first_byte :=
| Single
| Lead (needed lower upper : nat)
| Stray.

Definition classify (c : ascii) : first_byte :=
  let n := nat_of_ascii c in
  if (n <? 128)%nat then Single
  else if ((194 <=? n) && (n <=? 223))%nat then Lead 1 128 191
  else if (n =? 224)%nat then Lead 2 160 191
  else if ((225 <=? n) && (n <=? 236))%nat then Lead 2 128 191
  else if (n =? 237)%nat then Lead 2 128 159
  else if ((238 <=? n) && (n <=? 239))%nat then Lead 2 128 191
  else if (n =? 240)%nat then Lead 3 144 191
  else if ((241 <=? n) && (n <=? 243))%nat then Lead 3 128 191
  else if (n =? 244)%nat then Lead 3 128 143
  else Stray.

(** The decoder, writing what it decodes as UTF-8 again.  [seen] holds the
    bytes of the sequence under way and [needed] the number of bytes it
    still lacks.  A byte that cannot continue the sequence ends it with a
    U+FFFD and is looked at again as a first byte; a sequence cut off by
    the end of the input gives one U+FFFD. *)
Fixpoint decode (seen : string) (needed lower upper : nat) (s : string) : string :=
  match s with
  | EmptyString =>
      match needed with
      | O => EmptyString
      | S _ => replacement
      end
  | String c r =>
      let restart :=
        match classify c with
        | Single => String c (decode EmptyString 0 128 191 r)
        | Lead k lo hi => decode (String c EmptyString) k lo hi r
        | Stray => replacement +:+ decode EmptyString 0 128 191 r
        end in
      match needed with
      | O => restart
      | S m =>
          let n := nat_of_ascii c in
          if ((lower <=? n) && (n <=? upper))%nat then
            match m with
            | O => seen +:+ String c (decode EmptyString 0 128 191 r)
            | S _ => decode (seen +:+ String c EmptyString) m 128 191 r
            end
          else replacement +:+ restart
      end
  end.

(** [buffer.toString('utf8')], as bytes again. *)
Definition utf8 (bytes : string) : string := decode EmptyString 0 128 191 bytes.

(** Texts of ASCII characters only. *)
Fixpoint ascii_only (s : string) : bool :=
  match s with
  | EmptyString => true
  | String c r => (nat_of_ascii c <? 128)%nat && ascii_only r
  end.

(** The bytes with the given values. *)
Definition of_codes (l : list Z) : string :=
  fold_right (fun n r => String (ascii_of_N (Z.to_N n)) r) EmptyString l.

End Utf8.

(** ** JavaScript strings

    Every pattern the command searches for is ASCII, so searching and
    splitting on the bytes of the encoding agrees with JavaScript's UTF-16
    view of the string. *)
Module JsString.

(** [s.startsWith(p)] *)
Fixpoint startsWith (p s : string) : bool :=
  match p, s with
  | EmptyString, _ => true
  | String a p', String b s' => if Ascii.eqb a b then startsWith p' s' else false
  | String _ _, EmptyString => false
  end.

(** [s.includes(p)] *)
Fixpoint includes (p s : string) : bool :=
  startsWith p s ||
  match s with
  | EmptyString => false
  | String _ s' => includes p s'
  end.

(** [s.split(sep)] for a separator of one character.  The result is never
    empty: [''.split('\n')] is [['']]. *)
Fixpoint split (sep : ascii) (s : string) : list string :=
  match s with
  | EmptyString => [EmptyString]
  | String c s' =>
      if Ascii.eqb c sep then EmptyString :: split sep s'
      else match split sep s' with
           | h :: t => String c h :: t
           | [] => [String c EmptyString]
           end
  end.

(** Truthiness of a string value: only the empty string is falsy. *)
Definition truthy (s : string) : bool :=
  match s with EmptyString => false | String _ _ => true end.

End JsString.

(** ** JavaScript arrays of strings *)
Module JsArray.

(** An array object: its indexed elements, and the properties that were
    assigned under keys that are not array indices (a negative number used
    as a key is such a property: it is stored on the object, it is not an
    element and it does not change [length]). *)
Record t := mk { elems : list string; props : list (Z * string) }.

Definition of_list (l : list string) : t := mk l [].

(** [a.join(sep)]: only the indexed elements take part. *)
Fixpoint join_list (sep : string) (l : list string) : string :=
  match l with
  | [] => EmptyString
  | [x] => x
  | x :: rest => x ++ sep ++ join_list sep rest
  end.

Definition join (sep : string) (a : t) : string := join_list sep (elems a).

(** [a.find(p)]: the first element satisfying [p], or [undefined]. *)
Fixpoint find (p : string -> bool) (l : list string) : option string :=
  match l with
  | [] => None
  | x :: rest => if p x then Some x else find p rest
  end.

(** [a.indexOf(x)]: the first index whose element is strictly equal to
    [x], or [-1].  [undefined] is strictly equal to no string. *)
Fixpoint indexOf_from (i : Z) (x : string) (l : list string) : Z :=
  match l with
  | [] => -1
  | y :: rest => if String.eqb y x then i else indexOf_from (i + 1) x rest
  end.

Definition indexOf (x : option string) (l : list string) : Z :=
  match x with
  | None => -1
  | Some s => indexOf_from 0 s l
  end.

(** [a[i] = v] for an integer [i]:
    - inside the array, the element is replaced;
    - at or past [length], the array grows; the skipped positions are
      holes, which [join] renders as empty strings;
    - for a negative [i] the assignment creates the property named by
      [i] and leaves every element alone. *)
Definition set (a : t) (i : Z) (v : string) : t :=
  if i <? 0 then mk (elems a) ((i, v) :: props a)
  else
    let n := Z.to_nat i in
    if (n <? length (elems a))%nat then mk (<[n := v]> (elems a)) (props a)
    else mk (elems a ++ repeat EmptyString (n - length (elems a)) ++ [v]) (props a).

End JsArray.

(** ** JSON

    [JSON.parse] and [JSON.stringify] on the values the command handles:
    objects whose members are strings, booleans, [null] or objects again.
    An object is the list of its members in insertion order, which is the
    order [JSON.stringify] enumerates them in (keys that look like array
    indices, which JavaScript enumerates first, do not occur here).  Numbers
    and arrays are not part of the fragment, and neither are [\u] escapes
    above [007F]: on such texts [parse] answers [None] although
    [JSON.parse] would accept them, so no result below rests on [parse]
    failing. *)
Module Json.

#[warnings="-register-all"] Inductive value :=
| JNull
| JBool (b : bool)
| JStr (s : string)
| JObj (members : list (string * value)).

(** [o[k] = v]: an existing member keeps its position, a new one goes
    last. *)
Fixpoint obj_set (k : string) (v : value) (ms : list (string * value))
  : list (string * value) :=
  match ms with
  | [] => [(k, v)]
  | (k', v') :: rest =>
      if String.eqb k' k then (k', v) :: rest else (k', v') :: obj_set k v rest
  end.

(** [o[k]] *)
Fixpoint obj_get (k : string) (ms : list (string * value)) : option value :=
  match ms with
  | [] => None
  | (k', v') :: rest => if String.eqb k' k then Some v' else obj_get k rest
  end.

(** *** Strings *)

Definition is_control (c : ascii) : bool := (nat_of_ascii c <? 32)%nat.

(** A character that a JSON string holds as it is. *)
Definition plain_char (c : ascii) : bool :=
  negb (Ascii.eqb c DQ) && negb (Ascii.eqb c BSL) && negb (is_control c).

Fixpoint plain (s : string) : bool :=
  match s with
  | EmptyString => true
  | String c s' => plain_char c && plain s'
  end.

Definition hex_digit (n : nat) : ascii :=
  if (n <? 10)%nat then ascii_of_nat (48 + n) else ascii_of_nat (87 + n).

Definition escape_char (c : ascii) : string :=
  if Ascii.eqb c DQ then String BSL (String DQ "")
  else if Ascii.eqb c BSL then String BSL (String BSL "")
  else if Ascii.eqb c "008" then String BSL "b"
  else if Ascii.eqb c "009" then String BSL "t"
  else if Ascii.eqb c "010" then String BSL "n"
  else if Ascii.eqb c "012" then String BSL "f"
  else if Ascii.eqb c "013" then String BSL "r"
  else if is_control c then
    String BSL ("u00" ++ String (hex_digit (nat_of_ascii c / 16))
                           (String (hex_digit (nat_of_ascii c mod 16)) ""))
  else String c "".

Fixpoint escape (s : string) : string :=
  match s with
  | EmptyString => EmptyString
  | String c s' => escape_char c ++ escape s'
  end.

(** *** [JSON.stringify] *)

Fixpoint stringify (v : value) : string :=
  match v with
  | JNull => "null"
  | JBool true => "true"
  | JBool false => "false"
  | JStr s => quote (escape s)
  | JObj ms =>
      "{" ++ JsArray.join_list ","
               (List.map (fun kv => quote (escape (fst kv)) +:+ ":" +:+ stringify (snd kv)) ms)
          ++ "}"
  end.

(** *** [JSON.parse] *)

Definition is_ws (c : ascii) : bool :=
  Ascii.eqb c " " || Ascii.eqb c "009" || Ascii.eqb c "010" || Ascii.eqb c "013".

Fixpoint skip_ws (s : string) : string :=
  match s with
  | EmptyString => EmptyString
  | String c s' => if is_ws c then skip_ws s' else s
  end.

Definition hex_value (c : ascii) : option nat :=
  let n := nat_of_ascii c in
  if ((48 <=? n) && (n <=? 57))%nat then Some (n - 48)%nat
  else if ((97 <=? n) && (n <=? 102))%nat then Some (n - 87)%nat
  else if ((65 <=? n) && (n <=? 70))%nat then Some (n - 55)%nat
  else None.

Definition unescape (e : ascii) : option ascii :=
  if Ascii.eqb e DQ then Some DQ
  else if Ascii.eqb e BSL then Some BSL
  else if Ascii.eqb e "/" then Some "/"%char
  else if Ascii.eqb e "b" then Some "008"%char
  else if Ascii.eqb e "t" then Some "009"%char
  else if Ascii.eqb e "n" then Some "010"%char
  else if Ascii.eqb e "f" then Some "012"%char
  else if Ascii.eqb e "r" then Some "013"%char
  else None.

(** The characters of a string after its opening quote, up to the closing
    quote; the answer is the string and the text after the closing quote. *)
Fixpoint parse_chars (s : string) : option (string * string) :=
  match s with
  | EmptyString => None
  | String c r =>
      if Ascii.eqb c DQ then Some (EmptyString, r)
      else if Ascii.eqb c BSL then
        match r with
        | String e r1 =>
            if Ascii.eqb e "u" then
              match r1 with
              | String h1 (String h2 (String h3 (String h4 r2))) =>
                  match hex_value h1, hex_value h2, hex_value h3, hex_value h4 with
                  | Some 0%nat, Some 0%nat, Some a, Some b =>
                      if (a <? 8)%nat then
                        match parse_chars r2 with
                        | Some (str, rest) =>
                            Some (String (ascii_of_nat (16 * a + b)) str, rest)
                        | None => None
                        end
                      else None
                  | _, _, _, _ => None
                  end
              | _ => None
              end
            else
              match unescape e, parse_chars r1 with
              | Some c', Some (str, rest) => Some (String c' str, rest)
              | _, _ => None
              end
        | EmptyString => None
        end
      else if is_control c then None
      else
        match parse_chars r with
        | Some (str, rest) => Some (String c str, rest)
        | None => None
        end
  end.

Fixpoint drop (n : nat) (s : string) : string :=
  match n, s with
  | O, _ => s
  | S n', String _ s' => drop n' s'
  | S _, EmptyString => EmptyString
  end.

Fixpoint parse_value (fuel : nat) (s : string) {struct fuel}
  : option (value * string) :=
  match fuel with
  | O => None
  | S fuel' =>
      match skip_ws s with
      | EmptyString => None
      | String c r =>
          if Ascii.eqb c "{" then
            match skip_ws r with
            | EmptyString => None
            | String c' r' =>
                if Ascii.eqb c' "}" then Some (JObj [], r')
                else parse_members fuel' [] (String c' r')
            end
          else if Ascii.eqb c DQ then
            match parse_chars r with
            | Some (str, rest) => Some (JStr str, rest)
            | None => None
            end
          else if JsString.startsWith "true" (String c r) then
            Some (JBool true, drop 4 (String c r))
          else if JsString.startsWith "false" (String c r) then
            Some (JBool false, drop 5 (String c r))
          else if JsString.startsWith "null" (String c r) then
            Some (JNull, drop 4 (String c r))
          else None
      end
  end

with parse_members (fuel : nat) (acc : list (string * value)) (s : string)
       {struct fuel} : option (value * string) :=
  match fuel with
  | O => None
  | S fuel' =>
      match s with
      | EmptyString => None
      | String c r =>
          if Ascii.eqb c DQ then
            match parse_chars r with
            | None => None
            | Some (k, r1) =>
                match skip_ws r1 with
                | EmptyString => None
                | String c1 r2 =>
                    if Ascii.eqb c1 ":" then
                      match parse_value fuel' r2 with
                      | None => None
                      | Some (v, r3) =>
                          match skip_ws r3 with
                          | EmptyString => None
                          | String c2 r4 =>
                              if Ascii.eqb c2 "," then
                                parse_members fuel' (obj_set k v acc) (skip_ws r4)
                              else if Ascii.eqb c2 "}" then
                                Some (JObj (obj_set k v acc), r4)
                              else None
                          end
                      end
                    else None
                end
            end
          else None
      end
  end.

(** [JSON.parse(s)]; [None] is a [SyntaxError]. *)
Definition parse (s : string) : option value :=
  match parse_value (S (String.length s)) s with
  | Some (v, rest) =>
      match skip_ws rest with
      | EmptyString => Some v
      | String _ _ => None
      end
  | None => None
  end.

End Json.

(** ** The world around the command *)

(** What a rejected promise or a thrown exception carries. *)
Inductive error :=
| ProcessError (exitCode : Z) (stderr : string)
| SyntaxError
| TypeError
| ENOENT (path : string).

(** A subprocess, as the command starts it. An argument is [None] when the
    JavaScript value passed is [undefined]. *)
Inductive command :=
| Execa (file : string) (args : list (option string))
| Shell (cmd : string)
| ShellSync (cmd : string).

(** The four labels of the template prompt and the two of the mode prompt:
    a list prompt answers with one of its choices. *)
Inductive TemplateChoice := ChBasic | ChPwa | ChGraphql | ChNuxtJs.
Inductive ModeChoice := Universal | SPA.

Definition template_label (c : TemplateChoice) : string :=
  match c with
  | ChBasic => "basic"
  | ChPwa => "pwa"
  | ChGraphql => "graphql"
  | ChNuxtJs => "Nuxt-js"
  end.

Definition mode_label (m : ModeChoice) : string :=
  match m with
  | Universal => "Universal"
  | SPA => "SPA"
  end.

(** Everything the command asks of its surroundings.  The files of the
    working directory are a map from the path, spelled as the command spells
    it, to the text of the file.  [git clone] is the one subprocess that
    changes this map; the others ([rm -rf <project>/.git], [git init],
    [git add .], [git commit]) act on version-control metadata, which the map
    leaves out, so only their exit status matters. *)
Record Env := {
  argv : list string;                         (* process.argv *)
  isWin : bool;                               (* utils/constants *)
  path_join : string -> string -> string;     (* path.join *)
  validForNewPackages : string -> bool;       (* validate(name).validForNewPackages *)
  existsSync : string -> bool;                (* fs.existsSync, at start *)
  answer_template : TemplateChoice;           (* the 'template' prompt *)
  answer_requirePwaSupport : bool;            (* the 'requirePwaSupport' prompt *)
  answer_mode : ModeChoice;                   (* the 'mode' prompt *)
  exit_status : command -> option error;      (* None: exit code 0 *)
  clone_files : option string -> string -> gmap string string -> gmap string string
                                              (* url, directory, files before *)
}.

(** The messages the helpers of utils/messages and utils/validate print. *)
Inductive message :=
| StrayArgs
| InvalidProjectName (name : string)
| DirectoryExistsInPath (name : string)
| InstallationMissing (probe : string).

(** What the command does that can be observed from outside, in order. *)
Inductive event :=
| Banner (title tagline : string)
| Report (m : message)
| Log (text : string)
| LogTable (rows : list (string * string))
| Prompt (name : string)
| Exists (path : string)
| Read (path : string)
| Write (path content : string)
| Run (c : command)
| Chdir (dir : string)
| SpinnerStart (text : string)
| SpinnerFail (text : string)
| SpinnerStop
| UnhandledRejection (e : error).

(** The module-level variables of init.js, the files, and the events so far.
    [projectName] and [projectConfig] are declared without a value and
    assigned by [initializeProject] before [fetchTemplate], their only
    reader, is called; the value before the assignment is not represented.
    No file is accessed after the working directory changes, so every path
    is relative to the starting directory, and [process.chdir] is an event
    only. *)
Record State := {
  availableCommands : list (string * string);
  projectName : string;
  projectConfig : list string;
  fs : gmap string string;
  trace : list event
}.

(** ** The monad: state, exceptions and [process.exit] *)

Inductive outcome (A : Type) :=
| Done (a : A)
| Thrown (e : error)
| Exited (code : Z).
Arguments Done {A} a.
Arguments Thrown {A} e.
Arguments Exited {A} code.

Definition M (A : Type) : Type := State -> outcome A * State.

Definition ret {A} (a : A) : M A := fun s => (Done a, s).

Definition bind {A B} (m : M A) (k : A -> M B) : M B :=
  fun s =>
    match m s with
    | (Done a, s') => k a s'
    | (Thrown e, s') => (Thrown e, s')
    | (Exited c, s') => (Exited c, s')
    end.

Notation "'let!' x ':=' m 'in' k" := (bind m (fun x => k))
  (at level 10, x name, m at level 100, k at level 200).
Notation "m '>>' k" := (bind m (fun _ => k))
  (at level 90, right associativity).

Definition throw {A} (e : error) : M A := fun s => (Thrown e, s).

(** [process.exit(code)] *)
Definition exit {A} (code : Z) : M A := fun s => (Exited code, s).

(** [try { m } catch (err) { h err }] *)
Definition try_catch {A} (m : M A) (h : error -> M A) : M A :=
  fun s =>
    match m s with
    | (Thrown e, s') => h e s'
    | r => r
    end.

Definition emit (e : event) : M unit :=
  fun s => (Done tt,
            {| availableCommands := availableCommands s;
               projectName := projectName s;
               projectConfig := projectConfig s;
               fs := fs s;
               trace := trace s ++ [e] |}).

Definition gets {A} (f : State -> A) : M A := fun s => (Done (f s), s).

Definition set_fs (f : gmap string string) : M unit :=
  fun s => (Done tt,
            {| availableCommands := availableCommands s;
               projectName := projectName s;
               projectConfig := projectConfig s;
               fs := f;
               trace := trace s |}).

Definition set_projectName (n : string) : M unit :=
  fun s => (Done tt,
            {| availableCommands := availableCommands s;
               projectName := n;
               projectConfig := projectConfig s;
               fs := fs s;
               trace := trace s |}).

Definition set_projectConfig (c : list string) : M unit :=
  fun s => (Done tt,
            {| availableCommands := availableCommands s;
               projectName := projectName s;
               projectConfig := c;
               fs := fs s;
               trace := trace s |}).

Definition set_availableCommands (t : list (string * string)) : M unit :=
  fun s => (Done tt,
            {| availableCommands := t;
               projectName := projectName s;
               projectConfig := projectConfig s;
               fs := fs s;
               trace := trace s |}).

(** An async function called without [await]: its effects happen, in the
    same order since nothing else runs in between, but a rejection reaches
    nobody: the caller goes on, and the rejection is left unhandled. *)
Definition detach (m : M unit) : M unit :=
  fun s =>
    match m s with
    | (Thrown e, s') => emit (UnhandledRejection e) s'
    | r => r
    end.

(** ** The operations the command performs on its surroundings *)

Section Program.

Variable env : Env.

(** [console.log(text)]; the colours chalk adds are left out. *)
Definition console_log (text : string) : M unit := emit (Log text).

(** [inquirer.prompt] with one question. *)
Definition prompt {A} (name : string) (answer : A) : M A :=
  emit (Prompt name) >> ret answer.

(** [fs.readFileSync(path).toString()], for the one file read this way,
    mevn.json: its bytes are those the command wrote from a string a few
    lines before, and they decode to that string. *)
Definition readFileSync (path : string) : M string :=
  emit (Read path) >>
  let! files := gets fs in
  match files !! path with
  | Some text => ret text
  | None => throw (ENOENT path)
  end.

(** [fs.readFileSync(path, 'utf8').toString()]: the bytes of the file,
    whatever they are, decoded. *)
Definition readFileSync_utf8 (path : string) : M string :=
  let! bytes := readFileSync path in
  ret (Utf8.utf8 bytes).

(** [fs.writeFileSync(path, text)]; the directory of every path the
    command writes to is the clone's, which exists by then. *)
Definition writeFileSync (path text : string) : M unit :=
  emit (Write path text) >>
  let! files := gets fs in
  set_fs (<[path := text]> files).

(** [await execa(file, args)] and [execa.shellSync(cmd)]: anything but
    exit code 0 rejects, respectively throws.  A subprocess is an event and
    an exit status: what the removal of [.git] and [git init], [add] and
    [commit] do to the files under [<dir>/.git] is not part of [fs], which
    is right for the files the command reads and writes itself; none of
    them is under [.git]. *)
Definition run (c : command) : M unit :=
  emit (Run c) >>
  match exit_status env c with
  | None => ret tt
  | Some e => throw e
  end.

(** [await execa('git', ['clone', url, dir])] *)
Definition git_clone (url : option string) (dir : string) : M unit :=
  let c := Execa "git" [Some "clone"; url; Some dir] in
  emit (Run c) >>
  let! files := gets fs in
  set_fs (clone_files env url dir files) >>
  match exit_status env c with
  | None => ret tt
  | Some e => throw e
  end.

End Program.

(** ** init.js *)

Definition boilerplate : list (string * string) :=
  [ ("basic", "https://github.com/madlabsinc/mevn-boilerplate.git");
    ("pwa", "https://github.com/madlabsinc/mevn-pwa-boilerplate.git");
    ("graphql", "https://github.com/madlabsinc/mevn-graphql-boilerplate.git");
    ("nuxt", "https://github.com/madlabsinc/mevn-nuxt-boilerplate.git") ].

(** [table[key]]: [None] is [undefined]. *)
Fixpoint property (table : list (string * string)) (key : string) : option string :=
  match table with
  | [] => None
  | (k, v) :: rest => if String.eqb k key then Some v else property rest key
  end.

(** The two files of the generated project the command touches. *)
Definition mevn_json (name : string) : string := "./" +:+ name +:+ "/mevn.json".
Definition nuxt_config_js (name : string) : string := "./" +:+ name +:+ "/nuxt.config.js".

(** The line that takes the place of the first line containing [mode]. *)
Definition universal_mode_line : string := " mode: 'universal',".

Definition when (c : bool) (m : M unit) : M unit := if c then m else ret tt.

Section Init.

Variable env : Env.

(** Modelled from the spec: [hasStrayArgs], [invalidProjectName] and
    [directoryExistsInPath] of utils/messages, which are not part of the
    sources at hand.  Each failure is reported with a human-readable
    message and is terminal for the workflow: the process exits with a
    non-zero status. *)
Definition hasStrayArgs : M unit :=
  emit (Report StrayArgs) >> exit 1.

Definition invalidProjectName (appName : string) : M unit :=
  emit (Report (InvalidProjectName appName)) >> exit 1.

Definition directoryExistsInPath (appName : string) : M unit :=
  emit (Report (DirectoryExistsInPath appName)) >> exit 1.

(** Modelled from the spec: [validateInstallation] of utils/validate, which
    is not part of the sources at hand.  The client is verified by invoking
    the given no-op help command; if that fails, the error is resolved
    locally (printed, then abort) without raising further. *)
Definition validateInstallation (probe : string) : M unit :=
  try_catch (run env (Shell probe))
            (fun _ => emit (Report (InstallationMissing probe)) >> exit 1).

(** [makeInitialCommit] (lines 39-44) *)
Definition makeInitialCommit : M unit :=
  let! name := gets projectName in
  emit (Chdir name) >>
  run env (Execa "git" [Some "init"]) >>
  run env (Execa "git" [Some "add"; Some "."]) >>
  run env (Execa "git" [Some "commit"; Some "-m"; Some "Initial commit";
                        Some "-m"; Some "From Mevn-CLI"]).

(** The rows [showCommandsList] pushes on the table. *)
Definition commands_rows : list (string * string) :=
  [ ("mevn init", "To bootstrap a MEVN webapp");
    ("mevn serve", "To launch client/server");
    ("mevn add:package", "Add additional packages");
    ("mevn generate", "To generate config files");
    ("mevn codesplit <name>", "Lazy load components");
    ("mevn dockerize", "Launch within docker containers");
    ("mevn deploy", "Deploy the app to Heroku");
    ("mevn info", "Prints local environment information") ].

(** [showCommandsList] (lines 52-100) *)
Definition showCommandsList : M unit :=
  console_log "" >>
  console_log " Available commands:-" >>
  let! table := gets availableCommands in
  set_availableCommands (table ++ commands_rows) >>
  let! table := gets availableCommands in
  emit (LogTable table) >>
  console_log "" >>
  console_log "" >>
  let! name := gets projectName in
  console_log (" Make sure that you've done cd " +:+ name) >>
  console_log "" >>
  console_log " Warning:  Do not delete the mevn.json file" >>
  let removeCmd := if isWin env then "rmdir /s /q" else "rm -rf" in
  run env (ShellSync (removeCmd +:+ " " +:+ path_join env name ".git")) >>
  detach makeInitialCommit.

(** The PWA question of [fetchTemplate] and what follows from it
    (lines 129-146). *)
Definition requirePwa_step (name : string) : M unit :=
  let! requirePwaSupport := prompt "requirePwaSupport" (answer_requirePwaSupport env) in
  when requirePwaSupport
    (let! text := readFileSync (mevn_json name) in
     match Json.parse text with
     | None => throw SyntaxError
     | Some (Json.JObj members) =>
         writeFileSync (mevn_json name)
           (Json.stringify (Json.JObj (Json.obj_set "isPwa" (Json.JBool true) members)))
     | Some _ => throw TypeError
     end).

(** The rendering-mode question of [fetchTemplate] and what follows from
    it (lines 148-172). *)
Definition mode_step (name : string) : M unit :=
  let! mode := prompt "mode" (mode_label (answer_mode env)) in
  when (String.eqb mode "Universal")
    (let! text := readFileSync_utf8 (nuxt_config_js name) in
     let configFile := JsArray.of_list (JsString.split LF text) in
     let index :=
       JsArray.indexOf
         (JsArray.find (JsString.includes "mode") (JsArray.elems configFile))
         (JsArray.elems configFile) in
     let configFile := JsArray.set configFile index universal_mode_line in
     writeFileSync (nuxt_config_js name) (JsArray.join (String LF "") configFile)).

(** [fetchTemplate] (lines 109-175) *)
Definition fetchTemplate (template : string) : M unit :=
  validateInstallation "git help -g" >>
  emit (SpinnerStart "Fetching the boilerplate template") >>
  let! name := gets projectName in
  try_catch (git_clone env (property boilerplate template) name)
            (fun err => emit (SpinnerFail "Something went wrong") >> throw err) >>
  emit SpinnerStop >>
  let! config := gets projectConfig in
  writeFileSync (mevn_json name) (JsArray.join_list (String LF "") config) >>
  when (String.eqb template "nuxt") (requirePwa_step name >> mode_step name) >>
  showCommandsList.

(** [process.argv[4] && !process.argv[4].startsWith('-')], as a
    condition: a missing argument and the empty string are both falsy. *)
Definition hasMultipleProjectNameArgs : bool :=
  match argv env !! 4%nat with
  | None => false
  | Some a => JsString.truthy a && negb (JsString.startsWith "-" a)
  end.

(** [initializeProject] (lines 184-227) *)
Definition initializeProject (appName : string) : M unit :=
  emit (Banner "Mevn CLI" "Light speed setup for MEVN stack based apps.") >>
  when hasMultipleProjectNameArgs hasStrayArgs >>
  when (negb (validForNewPackages env appName)) (invalidProjectName appName) >>
  let! present := (emit (Exists appName) >> ret (existsSync env appName)) in
  when present (directoryExistsInPath appName) >>
  set_projectName appName >>
  let! template := prompt "template" (template_label (answer_template env)) in
  set_projectConfig
    [ "{";
      quote "name" +:+ ": " +:+ quote appName +:+ ",";
      quote "template" +:+ ": " +:+ quote template;
      "}" ] >>
  let template := if String.eqb template "Nuxt-js" then "nuxt" else template in
  detach (fetchTemplate template).

End Init.

(** * The vocabulary of the properties *)

(** ** Texts, lines and JSON members *)

(** [has_char c s]: the character occurs in [s]. *)
Fixpoint has_char (c : ascii) (s : string) : bool :=
  match s with
  | EmptyString => false
  | String x s' => Ascii.eqb x c || has_char c s'
  end.

(** [first_match p l i]: [i] is the first position of [l] whose line
    satisfies [p]. *)
Definition first_match (p : string -> bool) (l : list string) (i : nat) : Prop :=
  (exists x, l !! i = Some x /\ p x = true) /\
  (forall j y, (j < i)%nat -> l !! j = Some y -> p y = false).

(** The test of the mode step: the line contains [mode]. *)
Definition has_mode : string -> bool := JsString.includes "mode".

(** [replaced_line old new i line]: the lines [new] are the lines [old]
    with the one at position [i] replaced by [line]; every other line is
    where it was. *)
Definition replaced_line (old new : list string) (i : nat) (line : string) : Prop :=
  length new = length old /\
  new !! i = Some line /\
  forall j, j <> i -> new !! j = old !! j.

(** The text the mode step writes back when the text it decoded from the
    file is [old]. *)
Definition patched (old : string) : string :=
  let configFile := JsArray.of_list (JsString.split LF old) in
  let index :=
    JsArray.indexOf
      (JsArray.find (JsString.includes "mode") (JsArray.elems configFile))
      (JsArray.elems configFile) in
  JsArray.join (String LF "") (JsArray.set configFile index universal_mode_line).

(** The lines [initializeProject] stores in [projectConfig]. *)
Definition config_lines (appName template : string) : list string :=
  [ "{";
    quote "name" +:+ ": " +:+ quote appName +:+ ",";
    quote "template" +:+ ": " +:+ quote template;
    "}" ].

(** The text [fetchTemplate] writes first. *)
Definition config_text (appName template : string) : string :=
  JsArray.join_list (String LF "") (config_lines appName template).

(** The object that text denotes. *)
Definition config_object (appName template : string) : list (string * Json.value) :=
  [("name", Json.JStr appName); ("template", Json.JStr template)].

(** The text written after the PWA question was answered with yes. *)
Definition pwa_text (appName template : string) : string :=
  Json.stringify
    (Json.JObj (Json.obj_set "isPwa" (Json.JBool true) (config_object appName template))).

(** The value a JSON text gives to a key, if the text is an object. *)
Definition member (key text : string) : option Json.value :=
  match Json.parse text with
  | Some (Json.JObj ms) => Json.obj_get key ms
  | _ => None
  end.

(** ** States and the events of a run *)

Definition add_events (evs : list event) (s : State) : State :=
  {| availableCommands := availableCommands s;
     projectName := projectName s;
     projectConfig := projectConfig s;
     fs := fs s;
     trace := trace s ++ evs |}.

Definition with_files (files : gmap string string) (s : State) : State :=
  {| availableCommands := availableCommands s;
     projectName := projectName s;
     projectConfig := projectConfig s;
     fs := files;
     trace := trace s |}.

(** [added s s' evs]: the run from [s] to [s'] added the events [evs], in
    this order, to the trace. *)
Definition added (s s' : State) (evs : list event) : Prop :=
  trace s' = trace s ++ evs.

(** The subprocess that probes for the client, and the one that clones. *)
Definition probe : command := Shell "git help -g".

Definition clone_command (template name : string) : command :=
  Execa "git" [Some "clone"; property boilerplate template; Some name].

(** The command that removes the history of the clone. *)
Definition removal_command (env : Env) (name : string) : command :=
  ShellSync ((if isWin env then "rmdir /s /q" else "rm -rf")
             +:+ " " +:+ path_join env name ".git").

Definition git_init : command := Execa "git" [Some "init"].
Definition git_add : command := Execa "git" [Some "add"; Some "."].
Definition git_commit : command :=
  Execa "git" [Some "commit"; Some "-m"; Some "Initial commit";
               Some "-m"; Some "From Mevn-CLI"].

(** The canonical key of a choice: the label, except that [Nuxt-js] stands
    for [nuxt]. *)
Definition canonical_key (c : TemplateChoice) : string :=
  match c with
  | ChNuxtJs => "nuxt"
  | _ => template_label c
  end.

(** The three checks of [initializeProject] let the name through. *)
Definition passes_validation (env : Env) (appName : string) : Prop :=
  hasMultipleProjectNameArgs env = false /\
  validForNewPackages env appName = true /\
  existsSync env appName = false.

(** The client is there and the clone exits with 0. *)
Definition fetch_succeeds (env : Env) (template name : string) : Prop :=
  exit_status env probe = None /\
  exit_status env (clone_command template name) = None.

(** The files of the working directory once [git clone] returned. *)
Definition cloned (env : Env) (template name : string) (s : State)
  : gmap string string :=
  clone_files env (property boilerplate template) name (fs s).

(** The state in which [initializeProject] calls [fetchTemplate]. *)
Definition prepared (env : Env) (appName : string) (s : State) : State :=
  {| availableCommands := availableCommands s;
     projectName := appName;
     projectConfig := config_lines appName (template_label (answer_template env));
     fs := fs s;
     trace := trace s ++ [ Banner "Mevn CLI" "Light speed setup for MEVN stack based apps.";
                           Exists appName;
                           Prompt "template" ] |}.

(** The state in which [fetchTemplate] reaches the template-specific
    block: the clone is there and mevn.json was written. *)
Definition fetched (env : Env) (template : string) (s : State) : State :=
  let name := projectName s in
  let text := JsArray.join_list (String LF "") (projectConfig s) in
  {| availableCommands := availableCommands s;
     projectName := name;
     projectConfig := projectConfig s;
     fs := <[mevn_json name := text]>
             (clone_files env (property boilerplate template) name (fs s));
     trace := trace s ++ [ Run probe;
                           SpinnerStart "Fetching the boilerplate template";
                           Run (clone_command template name);
                           SpinnerStop;
                           Write (mevn_json name) text ] |}.

(** What [fetchTemplate] runs once mevn.json is written. *)
Definition after_fetch (env : Env) (template name : string) : M unit :=
  when (String.eqb template "nuxt")
    (requirePwa_step env name >> mode_step env name)
  >> showCommandsList env.

(** The three reasons for which [initializeProject] gives up, in the order
    in which it looks for them, each with the message it reports and the
    probes of the file system made on the way. *)
Inductive rejected (env : Env) (appName : string) : message -> list event -> Prop :=
| rejected_stray (a : string) :
    argv env !! 4%nat = Some a ->
    a <> "" ->
    JsString.startsWith "-" a = false ->
    rejected env appName StrayArgs []
| rejected_name :
    hasMultipleProjectNameArgs env = false ->
    validForNewPackages env appName = false ->
    rejected env appName (InvalidProjectName appName) []
| rejected_directory :
    hasMultipleProjectNameArgs env = false ->
    validForNewPackages env appName = true ->
    existsSync env appName = true ->
    rejected env appName (DirectoryExistsInPath appName) [Exists appName].

(** ** Properties of programs that compose

    [keeps p m]: running [m] leaves the file at path [p] as it is.
    [emits P m]: running [m] adds events to the trace, never removes any, and
    every event it adds satisfies [P]. *)

Definition keeps (p : string) {A} (m : M A) : Prop :=
  forall s, fs (m s).2 !! p = fs s !! p.

Definition emits (P : event -> Prop) {A} (m : M A) : Prop :=
  forall s, exists evs, added s (m s).2 evs /\ Forall P evs.

(** ** Kinds of events *)

(** How often an event of some kind occurs. *)
Definition occurrences (kind : event -> bool) (evs : list event) : nat :=
  length (List.filter kind evs).

Definition is_table (e : event) : bool :=
  match e with LogTable _ => true | _ => false end.

Definition is_history_removal (e : event) : bool :=
  match e with Run (ShellSync _) => true | _ => false end.

Definition is_chdir (e : event) : bool :=
  match e with Chdir _ => true | _ => false end.

(** [git <sub> ...] started through execa. *)
Definition is_git (sub : string) (e : event) : bool :=
  match e with
  | Run (Execa file (Some s :: _)) => String.eqb file "git" && String.eqb s sub
  | _ => false
  end.

Definition is_write (e : event) : bool :=
  match e with Write _ _ => true | _ => false end.

(** A read or a write of the file at [path]. *)
Definition touches (path : string) (e : event) : bool :=
  match e with
  | Read p | Write p _ => String.eqb p path
  | _ => false
  end.

(** The events of the finalizer: it prints, it removes the history, and it
    starts the initial commit. *)
Definition finalizer_event (e : event) : bool :=
  is_table e || is_history_removal e || is_chdir e
  || is_git "init" e || is_git "add" e || is_git "commit" e.

(** What "the finalizer ran exactly once" means for the events of a run: the
    command table was printed once and the history removal was started once;
    each later step was started once if the one before it succeeded. *)
Definition finalized_once (env : Env) (name : string) (evs : list event) : Prop :=
  occurrences is_table evs = 1%nat /\
  occurrences is_history_removal evs = 1%nat /\
  (exit_status env (removal_command env name) = None ->
     occurrences is_chdir evs = 1%nat /\
     occurrences (is_git "init") evs = 1%nat /\
     (exit_status env git_init = None ->
        occurrences (is_git "add") evs = 1%nat /\
        (exit_status env git_add = None ->
           occurrences (is_git "commit") evs = 1%nat))).

(** ** Concrete machines *)

(** The module as it is loaded: an empty table; the two variables are not
    assigned yet. *)
Definition initial_state : State :=
  {| availableCommands := [];
     projectName := "";
     projectConfig := [];
     fs := ∅;
     trace := [] |}.

(** A nuxt.config.js of three lines, the second one setting the mode. *)
Definition sample_nuxt_config : string :=
  "export default {" +:+ String LF ("  mode: 'spa'," +:+ String LF "}").

Definition sample_argv : list string := ["node"; "mevn"; "init"; "my-app"].

(** A machine where every subprocess exits with 0 and the clone brings a
    nuxt.config.js. *)
Definition sample_env (args : list string) (c : TemplateChoice) (pwa : bool)
    (m : ModeChoice) : Env :=
  {| argv := args;
     isWin := false;
     path_join := fun a b => a +:+ "/" +:+ b;
     validForNewPackages := fun name => Json.plain name && JsString.truthy name;
     existsSync := fun _ => false;
     answer_template := c;
     answer_requirePwaSupport := pwa;
     answer_mode := m;
     exit_status := fun _ => None;
     clone_files := fun _ dir files => <[nuxt_config_js dir := sample_nuxt_config]> files |}.

(** A machine like [sample_env] on which [git clone] exits with 128. *)
Definition offline_env : Env :=
  {| argv := sample_argv;
     isWin := false;
     path_join := fun a b => a +:+ "/" +:+ b;
     validForNewPackages := fun _ => true;
     existsSync := fun _ => false;
     answer_template := ChBasic;
     answer_requirePwaSupport := false;
     answer_mode := SPA;
     exit_status := fun c =>
       match c with
       | Execa _ (Some "clone" :: _) => Some (ProcessError 128 "fatal: unable to access")
       | _ => None
       end;
     clone_files := fun _ _ files => files |}.

(** A machine like [sample_env] on which the directory is already there. *)
Definition taken_env : Env :=
  {| argv := sample_argv;
     isWin := false;
     path_join := fun a b => a +:+ "/" +:+ b;
     validForNewPackages := fun _ => true;
     existsSync := fun _ => true;
     answer_template := ChBasic;
     answer_requirePwaSupport := false;
     answer_mode := SPA;
     exit_status := fun _ => None;
     clone_files := fun _ _ files => files |}.

(** A machine on which the clone succeeds and the repository cloned keeps
    its configuration in nuxt.config.ts: there is no nuxt.config.js. *)
Definition bare_env : Env :=
  {| argv := sample_argv;
     isWin := false;
     path_join := fun a b => a +:+ "/" +:+ b;
     validForNewPackages := fun _ => true;
     existsSync := fun _ => false;
     answer_template := ChNuxtJs;
     answer_requirePwaSupport := false;
     answer_mode := Universal;
     exit_status := fun _ => None;
     clone_files := fun _ dir files =>
       <["./" +:+ dir +:+ "/package.json" := "{}"]>
         (<["./" +:+ dir +:+ "/nuxt.config.ts" := sample_nuxt_config]> files) |}.


(** The five bytes [61 FF 62 0A 63]: two lines, neither well-formed UTF-8
    as a whole nor containing [mode]. *)
Definition ill_formed_config : string :=
  String "a" (String "255" (String "b" (String LF "c"))).


(** ** Claims as the specification states them *)

(** C1, as the specification states it: whatever the user picks, the
    [template] member of mevn.json is the canonical key of the choice. *)
Definition C1_as_stated : Prop :=
  forall env appName s,
    passes_validation env appName ->
    fetch_succeeds env (canonical_key (answer_template env)) appName ->
    Json.plain appName = true ->
    exists text,
      fs (initializeProject env appName s).2 !! mevn_json appName = Some text /\
      member "template" text
      = Some (Json.JStr (canonical_key (answer_template env))).


(** C6, as the specification states it: an argument at position 4 that
    does not start with a dash makes the command give up. *)
Definition C6_as_stated : Prop :=
  forall env appName s a,
    argv env !! 4%nat = Some a ->
    JsString.startsWith "-" a = false ->
    exists code, (initializeProject env appName s).1 = Exited code.

(** C8, as the specification states it: after a successful clone the
    finalizer runs exactly once, whatever the template. *)
Definition C8_as_stated : Prop :=
  forall env c s,
    fetch_succeeds env (canonical_key c) (projectName s) ->
    exists evs,
      added s (fetchTemplate env (canonical_key c) s).2 evs /\
      finalized_once env (projectName s) evs.

(** C9, as the specification states it: whatever the bytes of
    nuxt.config.js, when none of its lines contains [mode] the mode step
    writes the file back with the content it had. *)
Definition C9_as_stated : Prop :=
  forall env name old s,
    answer_mode env = Universal ->
    fs s !! nuxt_config_js name = Some old ->
    (forall line, In line (JsString.split LF old) -> has_mode line = false) ->
    let lines := JsString.split LF old in
    JsArray.indexOf (JsArray.find has_mode lines) lines = -1 /\
    JsArray.elems (JsArray.set (JsArray.of_list lines) (-1) universal_mode_line)
    = lines /\
    mode_step env name s
    = (Done tt,
       add_events [ Prompt "mode";
                    Read (nuxt_config_js name);
                    Write (nuxt_config_js name) old ] s).

(** ** Vocabulary of the further properties *)

(** The commands of a list that get started when each one is awaited before
    the next is started, and the error of the first one that fails. *)
Fixpoint run_all (env : Env) (cmds : list command) : list command * option error :=
  match cmds with
  | [] => ([], None)
  | c :: rest =>
      match exit_status env c with
      | Some e => ([c], Some e)
      | None => (c :: (run_all env rest).1, (run_all env rest).2)
      end
  end.

(** The three commands of [makeInitialCommit], in the order of the source. *)
Definition initial_commit_commands : list command := [git_init; git_add; git_commit].

Definition is_prompt (e : event) : bool :=
  match e with Prompt _ => true | _ => false end.

Definition is_read (e : event) : bool :=
  match e with Read _ => true | _ => false end.



Definition is_unhandled (e : event) : bool :=
  match e with UnhandledRejection _ => true | _ => false end.

(** A Windows machine on which the removal of the history fails. *)
Definition windows_env : Env :=
  {| argv := sample_argv;
     isWin := true;
     path_join := fun a b => a +:+ "\" +:+ b;
     validForNewPackages := fun _ => true;
     existsSync := fun _ => false;
     answer_template := ChBasic;
     answer_requirePwaSupport := false;
     answer_mode := SPA;
     exit_status := fun c =>
       match c with
       | ShellSync _ => Some (ProcessError 1 "The system cannot find the file")
       | _ => None
       end;
     clone_files := fun _ _ files => files |}.

(** A machine like [sample_env] on which [git commit] exits with 128 (no
    identity configured). *)
Definition no_identity_env : Env :=
  {| argv := sample_argv;
     isWin := false;
     path_join := fun a b => a +:+ "/" +:+ b;
     validForNewPackages := fun _ => true;
     existsSync := fun _ => false;
     answer_template := ChBasic;
     answer_requirePwaSupport := false;
     answer_mode := SPA;
     exit_status := fun c =>
       match c with
       | Execa _ (Some "commit" :: _) => Some (ProcessError 128 "Please tell me who you are")
       | _ => None
       end;
     clone_files := fun _ _ files => files |}.

(** The events [fetchTemplate] can add when the project is [name]. *)
Inductive fetch_emitted (name : string) : event -> Prop :=
| fetch_run (c : command) : fetch_emitted name (Run c)
| fetch_report (p : string) : fetch_emitted name (Report (InstallationMissing p))
| fetch_spinner_start (t : string) : fetch_emitted name (SpinnerStart t)
| fetch_spinner_fail (t : string) : fetch_emitted name (SpinnerFail t)
| fetch_spinner_stop : fetch_emitted name SpinnerStop
| fetch_prompt (n : string) : fetch_emitted name (Prompt n)
| fetch_log (t : string) : fetch_emitted name (Log t)
| fetch_table (rows : list (string * string)) : fetch_emitted name (LogTable rows)
| fetch_chdir (dir : string) : fetch_emitted name (Chdir dir)
| fetch_unhandled (e : error) : fetch_emitted name (UnhandledRejection e)
| fetch_read_mevn : fetch_emitted name (Read (mevn_json name))
| fetch_write_mevn (t : string) : fetch_emitted name (Write (mevn_json name) t)
| fetch_read_nuxt : fetch_emitted name (Read (nuxt_config_js name))
| fetch_write_nuxt (t : string) : fetch_emitted name (Write (nuxt_config_js name) t).

(** The two module-level variables [initializeProject] assigns. *)
Definition vars (s : State) : string * list string :=
  (projectName s, projectConfig s).

(** [stable m]: running [m] assigns neither of the two variables. *)
Definition stable {A} (m : M A) : Prop :=
  forall s, vars (m s).2 = vars s.

(** The condition under which the stray-argument message is reported. *)
Definition stray_argument (env : Env) : Prop :=
  exists a, argv env !! 4%nat = Some a /\ a <> EmptyString /\
            JsString.startsWith "-" a = false.

(** * Properties *)

(** ** The built-ins on small inputs *)

Example split_keeps_last_empty_line :
  JsString.split LF ("a" +:+ String LF ("b" +:+ String LF EmptyString))
  = ["a"; "b"; EmptyString].
Proof. reflexivity. Qed.

Example split_of_empty_text : JsString.split LF EmptyString = [EmptyString].
Proof. reflexivity. Qed.

Example includes_inside_a_word :
  JsString.includes "mode" "  // modern build" = true.
Proof. reflexivity. Qed.

Example indexOf_of_undefined : JsArray.indexOf None ["a"; "b"] = -1.
Proof. reflexivity. Qed.

Example indexOf_first_equal_line :
  JsArray.indexOf (JsArray.find (JsString.includes "b") ["a"; "b"; "b"])
                  ["a"; "b"; "b"] = 1.
Proof. reflexivity. Qed.

Example set_at_minus_one :
  JsArray.join ","
    (JsArray.set (JsArray.of_list ["a"; "b"]) (-1) "x") = "a,b".
Proof. reflexivity. Qed.

Example set_inside :
  JsArray.join ","
    (JsArray.set (JsArray.of_list ["a"; "b"]) 1 "x") = "a,x".
Proof. reflexivity. Qed.

Example set_past_the_end :
  JsArray.join ","
    (JsArray.set (JsArray.of_list ["a"; "b"]) 3 "x") = "a,b,,x".
Proof. reflexivity. Qed.

Example utf8_keeps_well_formed_text :
  let text := Utf8.of_codes [ 239; 187; 191;        (* U+FEFF *)
                              99; 97; 102; 195; 169; (* caf, U+00E9 *)
                              226; 130; 172;         (* U+20AC *)
                              240; 159; 146; 169;    (* U+1F4A9 *)
                              237; 159; 191;         (* U+D7FF *)
                              244; 143; 191; 191 ]   (* U+10FFFF *) in
  Utf8.utf8 text = text.
Proof. reflexivity. Qed.

Example utf8_stray_byte :
  Utf8.utf8 (Utf8.of_codes [97; 255; 98; 10; 99])
  = Utf8.of_codes [97; 239; 191; 189; 98; 10; 99].
Proof. reflexivity. Qed.

Example utf8_latin1 :
  Utf8.utf8 (Utf8.of_codes [99; 97; 102; 233; 10])
  = Utf8.of_codes [99; 97; 102; 239; 191; 189; 10].
Proof. reflexivity. Qed.

Example utf8_overlong :
  Utf8.utf8 (Utf8.of_codes [192; 128]) = Utf8.replacement +:+ Utf8.replacement.
Proof. reflexivity. Qed.

Example utf8_surrogate :
  Utf8.utf8 (Utf8.of_codes [237; 160; 128])
  = Utf8.replacement +:+ Utf8.replacement +:+ Utf8.replacement.
Proof. reflexivity. Qed.

Example utf8_cut_off_at_the_end :
  Utf8.utf8 (Utf8.of_codes [97; 226; 130]) = "a" +:+ Utf8.replacement.
Proof. reflexivity. Qed.

Example utf8_cut_off_by_a_character :
  Utf8.utf8 (Utf8.of_codes [240; 159; 146; 97; 98])
  = Utf8.replacement +:+ "ab".
Proof. reflexivity. Qed.

Example utf8_cut_off_by_a_lead :
  Utf8.utf8 (Utf8.of_codes [226; 130; 195; 169])
  = Utf8.replacement +:+ Utf8.of_codes [195; 169].
Proof. reflexivity. Qed.

(** Decoding is the identity on ASCII text. *)
Lemma utf8_ascii_only (s : string) :
  Utf8.ascii_only s = true -> Utf8.utf8 s = s.
Proof.
  unfold Utf8.utf8. induction s as [|c s IH]; [reflexivity |].
  cbn [Utf8.ascii_only Utf8.decode]. intros H.
  apply andb_prop in H. destruct H as [Hc Hs].
  unfold Utf8.classify. rewrite Hc. f_equal. now apply IH.
Qed.

(** Decoding is idempotent on the sample texts: what was decoded is
    well-formed. *)
Example utf8_of_decoded :
  Utf8.utf8 (Utf8.utf8 (Utf8.of_codes [97; 255; 226; 130; 10; 192; 128]))
  = Utf8.utf8 (Utf8.of_codes [97; 255; 226; 130; 10; 192; 128]).
Proof. reflexivity. Qed.

Example stringify_escapes :
  Json.stringify (Json.JObj [("a", Json.JStr (String DQ (String LF "b")));
                             ("c", Json.JBool false)])
  = "{" +:+ quote "a" +:+ ":" +:+ quote (String BSL (String DQ (String BSL "nb")))
        +:+ "," +:+ quote "c" +:+ ":false}".
Proof. reflexivity. Qed.

Example parse_reads_escapes :
  Json.parse
    (Json.stringify (Json.JObj [("a", Json.JStr (String DQ (String LF (String "001" "b"))));
                                ("c", Json.JObj [("d", Json.JNull)])]))
  = Some (Json.JObj [("a", Json.JStr (String DQ (String LF (String "001" "b"))));
                     ("c", Json.JObj [("d", Json.JNull)])]).
Proof. reflexivity. Qed.

Example parse_last_duplicate_wins :
  Json.parse ("{" +:+ quote "a" +:+ ":true, " +:+ quote "b" +:+ ":null, "
                  +:+ quote "a" +:+ ":false}")
  = Some (Json.JObj [("a", Json.JBool false); ("b", Json.JNull)]).
Proof. reflexivity. Qed.

Example parse_rejects_trailing_comma :
  Json.parse ("{" +:+ quote "a" +:+ ":true,}") = None.
Proof. reflexivity. Qed.

(** ** Strings and arrays *)

Section StringFacts.

Lemma append_nil (b : string) : "" +:+ b = b.
Proof. reflexivity. Qed.

Lemma append_cons (x : ascii) (a b : string) :
  String x a +:+ b = String x (a +:+ b).
Proof. reflexivity. Qed.

Lemma append_assoc (a b c : string) : (a +:+ b) +:+ c = a +:+ (b +:+ c).
Proof.
  induction a as [|x a IH]; [reflexivity |].
  rewrite !append_cons. now f_equal.
Qed.

Variable sep : ascii.

Lemma split_not_nil (s : string) : JsString.split sep s <> [].
Proof.
  destruct s as [|c s]; simpl; [discriminate |].
  destruct (Ascii.eqb c sep); [discriminate |].
  destruct (JsString.split sep s); discriminate.
Qed.

Lemma join_cons2 (x y : string) (l : list string) :
  JsArray.join_list (String sep "") (x :: y :: l)
  = x +:+ String sep (JsArray.join_list (String sep "") (y :: l)).
Proof. reflexivity. Qed.

Lemma join_cons_char (c : ascii) (h : string) (t : list string) :
  JsArray.join_list (String sep "") (String c h :: t)
  = String c (JsArray.join_list (String sep "") (h :: t)).
Proof. destruct t; reflexivity. Qed.

(** Joining what was split gives the text back. *)
Lemma join_split (s : string) :
  JsArray.join_list (String sep "") (JsString.split sep s) = s.
Proof.
  induction s as [|c s IH]; [reflexivity |].
  cbn [JsString.split].
  destruct (Ascii.eqb_spec c sep) as [-> | Hne].
  - pose proof (split_not_nil s) as Hnil.
    destruct (JsString.split sep s) as [|h t]; [contradiction |].
    rewrite join_cons2, append_nil. now rewrite IH.
  - pose proof (split_not_nil s) as Hnil.
    destruct (JsString.split sep s) as [|h t]; [contradiction |].
    rewrite join_cons_char. now rewrite IH.
Qed.

(** No line of a split text holds the separator. *)
Lemma split_no_sep (s : string) :
  Forall (fun line => has_char sep line = false) (JsString.split sep s).
Proof.
  induction s as [|c s IH]; cbn [JsString.split].
  - repeat constructor.
  - destruct (Ascii.eqb_spec c sep) as [-> | Hne].
    + constructor; [reflexivity | exact IH].
    + pose proof (split_not_nil s) as Hnil.
      destruct (JsString.split sep s) as [|h t]; [contradiction |].
      inversion IH as [|? ? Hh Ht]; subst.
      constructor; [| exact Ht]. cbn [has_char].
      apply Ascii.eqb_neq in Hne. now rewrite Hne, Hh.
Qed.

Lemma split_line (x : string) :
  has_char sep x = false -> JsString.split sep x = [x].
Proof.
  induction x as [|c x IH]; cbn [has_char JsString.split]; intros H.
  - reflexivity.
  - apply orb_false_iff in H as [Hc Hx]. rewrite Hc, (IH Hx). reflexivity.
Qed.

Lemma split_line_sep (x rest : string) :
  has_char sep x = false ->
  JsString.split sep (x +:+ String sep rest) = x :: JsString.split sep rest.
Proof.
  induction x as [|c x IH]; cbn [has_char]; intros H.
  - rewrite append_nil. cbn [JsString.split]. now rewrite Ascii.eqb_refl.
  - apply orb_false_iff in H as [Hc Hx].
    rewrite append_cons. cbn [JsString.split]. rewrite Hc, (IH Hx). reflexivity.
Qed.

(** Splitting what was joined gives the lines back, when no line holds the
    separator. *)
Lemma split_join (l : list string) :
  l <> [] ->
  Forall (fun line => has_char sep line = false) l ->
  JsString.split sep (JsArray.join_list (String sep "") l) = l.
Proof.
  induction l as [|x l IH]; [congruence |].
  intros _ Hall. inversion Hall as [|? ? Hx Hl]; subst.
  destruct l as [|y l].
  - cbn [JsArray.join_list]. now apply split_line.
  - rewrite join_cons2, split_line_sep by exact Hx.
    f_equal. apply IH; [discriminate | exact Hl].
Qed.

End StringFacts.

Section ArrayFacts.

Variable p : string -> bool.

Lemma find_indexOf (l : list string) (x : string) (k : Z) :
  JsArray.find p l = Some x ->
  exists i : nat,
    first_match p l i /\ l !! i = Some x /\
    JsArray.indexOf_from k x l = k + Z.of_nat i.
Proof.
  revert k. induction l as [|y l IH]; intros k; cbn [JsArray.find]; [discriminate |].
  destruct (p y) eqn:Hy.
  - intros [= ->]. exists 0%nat. repeat split.
    + exists x. split; [reflexivity | exact Hy].
    + intros j z Hj. lia.
    + cbn [JsArray.indexOf_from]. rewrite String.eqb_refl. lia.
  - intros Hf. destruct (IH (k + 1) Hf) as (i & [[z [Hz Hpz]] Hfirst] & Hx & Hidx).
    exists (S i). repeat split.
    + exists z. split; [exact Hz | exact Hpz].
    + intros [|j] w Hj Hw.
      * cbn in Hw. now inversion Hw; subst.
      * apply (Hfirst j w); [lia | exact Hw].
    + exact Hx.
    + cbn [JsArray.indexOf_from].
      destruct (String.eqb_spec y x) as [-> | _].
      * rewrite Hz in Hx. inversion Hx; subst. congruence.
      * rewrite Hidx. lia.
Qed.

Lemma find_some (l : list string) :
  (exists x, In x l /\ p x = true) -> exists x, JsArray.find p l = Some x.
Proof.
  induction l as [|y l IH]; intros (x & Hin & Hp); [destruct Hin |].
  cbn [JsArray.find]. destruct (p y) eqn:Hy; [now exists y |].
  destruct Hin as [-> | Hin]; [congruence |].
  apply IH. now exists x.
Qed.

Lemma find_none (l : list string) :
  (forall x, In x l -> p x = false) -> JsArray.find p l = None.
Proof.
  induction l as [|y l IH]; intros H; [reflexivity |].
  cbn [JsArray.find]. rewrite (H y (or_introl eq_refl)).
  apply IH. intros x Hx. apply H. now right.
Qed.

(** The index the command computes is the first matching position. *)
Lemma indexOf_find_first (l : list string) :
  (exists x, In x l /\ p x = true) ->
  exists i : nat,
    first_match p l i /\ (i < length l)%nat /\
    JsArray.indexOf (JsArray.find p l) l = Z.of_nat i.
Proof.
  intros H. destruct (find_some l H) as [x Hx]. rewrite Hx.
  destruct (find_indexOf l x 0 Hx) as (i & Hfirst & Hl & Hidx).
  exists i. repeat split; try apply Hfirst.
  - now apply lookup_lt_Some in Hl.
  - exact Hidx.
Qed.

Lemma set_in_range (l : list string) (i : nat) (v : string) :
  (i < length l)%nat ->
  JsArray.elems (JsArray.set (JsArray.of_list l) (Z.of_nat i) v) = <[i := v]> l.
Proof.
  intros Hi. unfold JsArray.set, JsArray.of_list. cbn [JsArray.elems JsArray.props].
  destruct (Z.ltb_spec (Z.of_nat i) 0) as [Hneg | _]; [lia |].
  rewrite Nat2Z.id.
  destruct (Nat.ltb_spec i (length l)) as [_ | Hge]; [reflexivity | lia].
Qed.

Lemma set_negative (a : JsArray.t) (i : Z) (v : string) :
  i < 0 -> JsArray.elems (JsArray.set a i v) = JsArray.elems a.
Proof.
  intros Hi. unfold JsArray.set.
  destruct (Z.ltb_spec i 0) as [_ | Hge]; [reflexivity | lia].
Qed.

End ArrayFacts.

Ltac normalize_append :=
  repeat (rewrite append_cons || rewrite append_nil || rewrite append_assoc).

(** ** JSON texts the command reads back *)

Section JsonFacts.
Import Json.

Lemma length_append (a b : string) :
  String.length (a +:+ b) = (String.length a + String.length b)%nat.
Proof.
  induction a as [|x a IH]; [reflexivity |].
  rewrite append_cons. cbn [String.length]. now rewrite IH.
Qed.

Lemma plain_char_inv (c : ascii) :
  plain_char c = true ->
  Ascii.eqb c DQ = false /\ Ascii.eqb c BSL = false /\ is_control c = false.
Proof.
  unfold plain_char. intros H.
  apply andb_true_iff in H as [H Hctl].
  apply andb_true_iff in H as [Hdq Hbs].
  now apply negb_true_iff in Hdq, Hbs, Hctl.
Qed.

(** A plain string is read back as it stands. *)
Lemma parse_chars_plain (s rest : string) :
  plain s = true -> parse_chars (s +:+ String DQ rest) = Some (s, rest).
Proof.
  induction s as [|c s IH]; intros H.
  - reflexivity.
  - rewrite append_cons. cbn [plain] in H.
    apply andb_true_iff in H as [Hc Hs].
    destruct (plain_char_inv c Hc) as (Hdq & Hbs & Hctl).
    cbn [parse_chars]. rewrite Hdq, Hbs, Hctl, (IH Hs). reflexivity.
Qed.

Lemma control_is_not_plain (c : ascii) :
  is_control c = false ->
  Ascii.eqb c "008" = false /\ Ascii.eqb c "009" = false /\
  Ascii.eqb c "010" = false /\ Ascii.eqb c "012" = false /\
  Ascii.eqb c "013" = false.
Proof.
  intros H. repeat split; apply Ascii.eqb_neq; intros ->; discriminate H.
Qed.

(** A plain string is written as it stands. *)
Lemma escape_plain (s : string) : plain s = true -> escape s = s.
Proof.
  induction s as [|c s IH]; intros H; [reflexivity |].
  cbn [plain] in H. apply andb_true_iff in H as [Hc Hs].
  destruct (plain_char_inv c Hc) as (Hdq & Hbs & Hctl).
  destruct (control_is_not_plain c Hctl) as (H8 & H9 & H10 & H12 & H13).
  cbn [escape]. unfold escape_char.
  rewrite Hdq, Hbs, H8, H9, H10, H12, H13, Hctl, (IH Hs). reflexivity.
Qed.

Ltac parser_step :=
  cbn [parse_value parse_members skip_ws is_ws Ascii.eqb Bool.eqb orb andb negb
       JsString.startsWith drop DQ LF BSL];
  rewrite ?parse_chars_plain by assumption.

Lemma obj_set_fresh2 (k1 k2 : string) (v1 v2 : value) :
  k1 <> k2 -> obj_set k2 v2 (obj_set k1 v1 []) = [(k1, v1); (k2, v2)].
Proof.
  intros Hne. cbn [obj_set]. apply String.eqb_neq in Hne. now rewrite Hne.
Qed.

Lemma obj_set_fresh3 (k1 k2 k3 : string) (v1 v2 v3 : value) :
  k1 <> k3 -> k2 <> k3 ->
  obj_set k3 v3 [(k1, v1); (k2, v2)] = [(k1, v1); (k2, v2); (k3, v3)].
Proof.
  intros H1 H2. cbn [obj_set].
  apply String.eqb_neq in H1, H2. now rewrite H1, H2.
Qed.

(** The layout of the file [initializeProject] prepares: one member per
    line, a space after each colon. *)
Lemma parse_pretty2 (fuel : nat) (k1 v1 k2 v2 : string) :
  plain k1 = true -> plain v1 = true -> plain k2 = true -> plain v2 = true ->
  k1 <> k2 ->
  parse_value (S (S (S (S fuel))))
    (String "{" (String LF (String DQ (k1 +:+ String DQ (String ":" (String " "
     (String DQ (v1 +:+ String DQ (String "," (String LF
     (String DQ (k2 +:+ String DQ (String ":" (String " "
     (String DQ (v2 +:+ String DQ (String LF "}")))))))))))))))))
  = Some (JObj [(k1, JStr v1); (k2, JStr v2)], "").
Proof.
  intros H1 H2 H3 H4 Hne.
  do 6 parser_step.
  now rewrite obj_set_fresh2.
Qed.

(** The layout [JSON.stringify] produces for two string members followed by
    a member that is [true]. *)
Lemma parse_compact3 (fuel : nat) (k1 v1 k2 v2 k3 : string) :
  plain k1 = true -> plain v1 = true -> plain k2 = true -> plain v2 = true ->
  plain k3 = true ->
  k1 <> k2 -> k1 <> k3 -> k2 <> k3 ->
  parse_value (S (S (S (S (S fuel)))))
    (String "{" (String DQ (k1 +:+ String DQ (String ":"
     (String DQ (v1 +:+ String DQ (String ","
     (String DQ (k2 +:+ String DQ (String ":"
     (String DQ (v2 +:+ String DQ (String ","
     (String DQ (k3 +:+ String DQ (String ":" "true}"))))))))))))))))
  = Some (JObj [(k1, JStr v1); (k2, JStr v2); (k3, JBool true)], "").
Proof.
  intros H1 H2 H3 H4 H5 H12 H13 H23.
  do 8 parser_step.
  rewrite obj_set_fresh2 by assumption. now rewrite obj_set_fresh3.
Qed.

End JsonFacts.

(** ** The two texts of mevn.json *)

Lemma parse_config_text (appName template : string) :
  Json.plain appName = true -> Json.plain template = true ->
  Json.parse (config_text appName template)
  = Some (Json.JObj (config_object appName template)).
Proof.
  intros Hn Ht. unfold Json.parse.
  replace (config_text appName template) with
    (String "{" (String LF (String DQ ("name" +:+ String DQ (String ":" (String " "
     (String DQ (appName +:+ String DQ (String "," (String LF
     (String DQ ("template" +:+ String DQ (String ":" (String " "
     (String DQ (template +:+ String DQ (String LF "}"))))))))))))))))).
  - cbn [String.length]. rewrite parse_pretty2; try assumption; try reflexivity.
    discriminate.
  - unfold config_text, config_lines, quote.
    rewrite !join_cons2. cbn [JsArray.join_list].
    normalize_append. reflexivity.
Qed.

Lemma pwa_text_eq (appName template : string) :
  Json.plain appName = true -> Json.plain template = true ->
  pwa_text appName template =
    String "{" (String DQ ("name" +:+ String DQ (String ":"
      (String DQ (appName +:+ String DQ (String ","
      (String DQ ("template" +:+ String DQ (String ":"
      (String DQ (template +:+ String DQ (String ","
      (String DQ ("isPwa" +:+ String DQ (String ":" "true}"))))))))))))))).
Proof.
  intros Hn Ht. unfold pwa_text, config_object.
  cbn [Json.obj_set String.eqb Ascii.eqb Bool.eqb].
  cbn [Json.stringify List.map fst snd]. unfold quote.
  rewrite (escape_plain appName Hn), (escape_plain template Ht).
  change (Json.escape "name") with "name".
  change (Json.escape "template") with "template".
  change (Json.escape "isPwa") with "isPwa".
  rewrite !join_cons2. cbn [JsArray.join_list].
  normalize_append. reflexivity.
Qed.

Lemma parse_pwa_text (appName template : string) :
  Json.plain appName = true -> Json.plain template = true ->
  Json.parse (pwa_text appName template)
  = Some (Json.JObj (config_object appName template ++ [("isPwa", Json.JBool true)])).
Proof.
  intros Hn Ht. unfold Json.parse. rewrite pwa_text_eq by assumption.
  cbn [String.length]. rewrite length_append. cbn [String.length Nat.add].
  rewrite parse_compact3; try assumption; try reflexivity; discriminate.
Qed.

(** ** Running a program on a state *)

Ltac run_program :=
  cbv [fetchTemplate initializeProject showCommandsList makeInitialCommit
       requirePwa_step mode_step validateInstallation hasStrayArgs
       invalidProjectName directoryExistsInPath git_clone run readFileSync
       readFileSync_utf8
       writeFileSync prompt console_log when detach try_catch bind ret throw
       exit emit gets set_fs set_projectName set_projectConfig
       set_availableCommands add_events with_files added negb
       availableCommands projectName projectConfig fs trace fst snd].

Section RunFacts.

Variable env : Env.

Lemma mevn_json_not_nuxt_config (name : string) :
  mevn_json name <> nuxt_config_js name.
Proof.
  unfold mevn_json, nuxt_config_js. intros H.
  apply String.app_inj in H. apply String.app_inj in H. discriminate H.
Qed.

Lemma initializeProject_prepared (appName : string) (s : State) :
  passes_validation env appName ->
  initializeProject env appName s
  = detach (fetchTemplate env (canonical_key (answer_template env)))
           (prepared env appName s).
Proof.
  intros (Hstray & Hvalid & Hexists). destruct s as [ac pn pc f tr].
  unfold initializeProject, prepared.
  rewrite Hstray, Hvalid.
  cbv [when negb bind ret emit gets set_projectName set_projectConfig prompt
       availableCommands projectName projectConfig fs trace].
  rewrite Hexists.
  cbv [when negb bind ret emit gets set_projectName set_projectConfig prompt
       availableCommands projectName projectConfig fs trace].
  rewrite <- !app_assoc. cbn [app].
  destruct (answer_template env); reflexivity.
Qed.

Lemma fetchTemplate_fetched (template : string) (s : State) :
  exit_status env probe = None ->
  exit_status env (clone_command template (projectName s)) = None ->
  fetchTemplate env template s
  = (when (String.eqb template "nuxt")
       (requirePwa_step env (projectName s) >> mode_step env (projectName s))
     >> showCommandsList env) (fetched env template s).
Proof.
  intros Hp Hc. destruct s as [ac pn pc f tr].
  unfold probe, clone_command in *. cbn [projectName] in Hc.
  unfold fetchTemplate, fetched, validateInstallation, git_clone, run, writeFileSync.
  cbv [try_catch bind ret emit gets set_fs
       availableCommands projectName projectConfig fs trace].
  rewrite Hp.
  cbv [try_catch bind ret emit gets set_fs
       availableCommands projectName projectConfig fs trace].
  rewrite Hc.
  cbv [try_catch bind ret emit gets set_fs
       availableCommands projectName projectConfig fs trace].
  rewrite <- !app_assoc. reflexivity.
Qed.

End RunFacts.

(** ** Composition of [keeps] and [emits] *)

Section Composition.

Variable p : string.
Variable P : event -> Prop.

Lemma keeps_ret {A} (a : A) : keeps p (ret a).
Proof. intros s. reflexivity. Qed.

Lemma keeps_throw {A} (e : error) : keeps p (@throw A e).
Proof. intros s. reflexivity. Qed.

Lemma keeps_exit {A} (c : Z) : keeps p (@exit A c).
Proof. intros s. reflexivity. Qed.

Lemma keeps_emit (e : event) : keeps p (emit e).
Proof. intros s. reflexivity. Qed.

Lemma keeps_gets {A} (f : State -> A) : keeps p (gets f).
Proof. intros s. reflexivity. Qed.

Lemma keeps_set_availableCommands t : keeps p (set_availableCommands t).
Proof. intros s. reflexivity. Qed.

Lemma keeps_bind {A B} (m : M A) (k : A -> M B) :
  keeps p m -> (forall a, keeps p (k a)) -> keeps p (bind m k).
Proof.
  intros Hm Hk s. unfold bind. specialize (Hm s).
  destruct (m s) as [[a | e | c] s']; cbn [snd] in *; try exact Hm.
  now rewrite Hk.
Qed.

Lemma keeps_try_catch {A} (m : M A) (h : error -> M A) :
  keeps p m -> (forall e, keeps p (h e)) -> keeps p (try_catch m h).
Proof.
  intros Hm Hh s. unfold try_catch. specialize (Hm s).
  destruct (m s) as [[a | e | c] s']; cbn [snd] in *; try exact Hm.
  now rewrite Hh.
Qed.

Lemma keeps_detach (m : M unit) : keeps p m -> keeps p (detach m).
Proof.
  intros Hm s. unfold detach. specialize (Hm s).
  destruct (m s) as [[a | e | c] s']; cbn [snd] in *; exact Hm.
Qed.

Lemma keeps_when (c : bool) (m : M unit) : keeps p m -> keeps p (when c m).
Proof. intros Hm. destruct c; [exact Hm | apply keeps_ret]. Qed.

Lemma keeps_writeFileSync (path text : string) :
  path <> p -> keeps p (writeFileSync path text).
Proof. intros Hne s. cbn. now rewrite lookup_insert_ne. Qed.

Lemma emits_ret {A} (a : A) : emits P (ret a).
Proof. intros s. exists []. split; [unfold added; cbn; now rewrite app_nil_r | constructor]. Qed.

Lemma emits_throw {A} (e : error) : emits P (@throw A e).
Proof. intros s. exists []. split; [unfold added; cbn; now rewrite app_nil_r | constructor]. Qed.

Lemma emits_exit {A} (c : Z) : emits P (@exit A c).
Proof. intros s. exists []. split; [unfold added; cbn; now rewrite app_nil_r | constructor]. Qed.

Lemma emits_gets {A} (f : State -> A) : emits P (gets f).
Proof. intros s. exists []. split; [unfold added; cbn; now rewrite app_nil_r | constructor]. Qed.

Lemma emits_set_fs f : emits P (set_fs f).
Proof. intros s. exists []. split; [unfold added; cbn; now rewrite app_nil_r | constructor]. Qed.

Lemma emits_set_availableCommands t : emits P (set_availableCommands t).
Proof. intros s. exists []. split; [unfold added; cbn; now rewrite app_nil_r | constructor]. Qed.

Lemma emits_emit (e : event) : P e -> emits P (emit e).
Proof. intros He s. exists [e]. split; [reflexivity | now repeat constructor]. Qed.

Lemma emits_bind {A B} (m : M A) (k : A -> M B) :
  emits P m -> (forall a, emits P (k a)) -> emits P (bind m k).
Proof.
  intros Hm Hk s. unfold bind. destruct (Hm s) as (evs & Hadd & Hall).
  destruct (m s) as [[a | e | c] s']; cbn [snd] in *; try (now exists evs).
  destruct (Hk a s') as (evs' & Hadd' & Hall').
  exists (evs ++ evs'). split.
  - unfold added in *. now rewrite Hadd', Hadd, app_assoc.
  - now apply Forall_app.
Qed.

Lemma emits_try_catch {A} (m : M A) (h : error -> M A) :
  emits P m -> (forall e, emits P (h e)) -> emits P (try_catch m h).
Proof.
  intros Hm Hh s. unfold try_catch. destruct (Hm s) as (evs & Hadd & Hall).
  destruct (m s) as [[a | e | c] s']; cbn [snd] in *; try (now exists evs).
  destruct (Hh e s') as (evs' & Hadd' & Hall').
  exists (evs ++ evs'). split.
  - unfold added in *. now rewrite Hadd', Hadd, app_assoc.
  - now apply Forall_app.
Qed.

Lemma emits_detach (m : M unit) :
  emits P m -> (forall e, P (UnhandledRejection e)) -> emits P (detach m).
Proof.
  intros Hm Hu s. unfold detach. destruct (Hm s) as (evs & Hadd & Hall).
  destruct (m s) as [[a | e | c] s']; cbn [snd] in *; try (now exists evs).
  exists (evs ++ [UnhandledRejection e]). split.
  - unfold added in *. cbn. now rewrite Hadd, app_assoc.
  - apply Forall_app. split; [exact Hall | now repeat constructor].
Qed.

Lemma emits_when (c : bool) (m : M unit) : emits P m -> emits P (when c m).
Proof. intros Hm. destruct c; [exact Hm | apply emits_ret]. Qed.

End Composition.

Create HintDb keeps_db.
Create HintDb emits_db.

#[export] Hint Resolve keeps_ret keeps_throw keeps_exit keeps_emit keeps_gets
  keeps_set_availableCommands keeps_bind keeps_try_catch keeps_detach
  keeps_when : keeps_db.

#[export] Hint Resolve emits_ret emits_throw emits_exit emits_gets emits_set_fs
  emits_set_availableCommands emits_bind emits_try_catch emits_when : emits_db.

Section ProgramFacts.

Variable env : Env.

(** *** Files each function leaves alone *)

Lemma keeps_run (p : string) (c : command) : keeps p (run env c).
Proof. unfold run. destruct (exit_status env c); auto with keeps_db. Qed.

Lemma keeps_prompt (p : string) {A} (name : string) (a : A) :
  keeps p (prompt name a).
Proof. unfold prompt. auto with keeps_db. Qed.

Lemma keeps_readFileSync (p path : string) : keeps p (readFileSync path).
Proof.
  unfold readFileSync. apply keeps_bind; [auto with keeps_db |]. intros _.
  apply keeps_bind; [auto with keeps_db |]. intros files.
  destruct (files !! path); auto with keeps_db.
Qed.

Lemma keeps_makeInitialCommit (p : string) : keeps p (makeInitialCommit env).
Proof. unfold makeInitialCommit. auto 10 using keeps_run with keeps_db. Qed.

(** The finalizer leaves every file alone. *)
Lemma keeps_showCommandsList (p : string) : keeps p (showCommandsList env).
Proof.
  unfold showCommandsList, console_log.
  auto 20 using keeps_run, keeps_makeInitialCommit with keeps_db.
Qed.

(** The PWA step leaves every file but mevn.json alone. *)
Lemma keeps_requirePwa_step (p name : string) :
  p <> mevn_json name -> keeps p (requirePwa_step env name).
Proof.
  intros Hne. unfold requirePwa_step.
  apply keeps_bind; [apply keeps_prompt |]. intros pwa.
  apply keeps_when. apply keeps_bind; [apply keeps_readFileSync |]. intros text.
  destruct (Json.parse text) as [[| | |ms] |]; auto with keeps_db.
  apply keeps_writeFileSync. congruence.
Qed.

Lemma keeps_readFileSync_utf8 (p path : string) : keeps p (readFileSync_utf8 path).
Proof.
  unfold readFileSync_utf8. apply keeps_bind; [apply keeps_readFileSync |].
  intros bytes. apply keeps_ret.
Qed.

(** The mode step leaves every file but nuxt.config.js alone. *)
Lemma keeps_mode_step (p name : string) :
  p <> nuxt_config_js name -> keeps p (mode_step env name).
Proof.
  intros Hne. unfold mode_step.
  apply keeps_bind; [apply keeps_prompt |]. intros mode.
  apply keeps_when. apply keeps_bind; [apply keeps_readFileSync_utf8 |]. intros text.
  apply keeps_writeFileSync. congruence.
Qed.

End ProgramFacts.

(** ** Counting events *)

Lemma occurrences_app kind (l1 l2 : list event) :
  occurrences kind (l1 ++ l2) = (occurrences kind l1 + occurrences kind l2)%nat.
Proof. unfold occurrences. now rewrite List.filter_app, length_app. Qed.

Lemma occurrences_none kind (evs : list event) :
  Forall (fun e => kind e = false) evs -> occurrences kind evs = 0%nat.
Proof.
  unfold occurrences. induction 1 as [|e evs He _ IH]; [reflexivity |].
  cbn [List.filter]. now rewrite He.
Qed.

Section FinalizerFacts.

Variable env : Env.

Lemma showCommandsList_once (s : State) :
  exists evs,
    added s (showCommandsList env s).2 evs /\
    finalized_once env (projectName s) evs /\
    Forall (fun e => is_write e = false) evs.
Proof.
  destruct s as [ac pn pc f tr].
  unfold finalized_once, removal_command, git_init, git_add, git_commit.
  cbn [projectName].
  run_program.
  destruct (exit_status env (ShellSync _)) as [e0|] eqn:Hrm.
  { eexists. split; [cbn [snd trace]; rewrite <- !app_assoc; reflexivity |].
    split; [| repeat constructor].
    repeat split; try reflexivity; intros; discriminate. }
  run_program.
  destruct (exit_status env (Execa "git" [Some "init"])) as [e1|] eqn:Hinit.
  { eexists. split; [cbn [snd trace]; rewrite <- !app_assoc; reflexivity |].
    split; [| repeat constructor].
    repeat split; try reflexivity; intros; discriminate. }
  run_program.
  destruct (exit_status env (Execa "git" [Some "add"; Some "."])) as [e2|] eqn:Hadd.
  { eexists. split; [cbn [snd trace]; rewrite <- !app_assoc; reflexivity |].
    split; [| repeat constructor].
    repeat split; try reflexivity; intros; discriminate. }
  run_program.
  destruct (exit_status env (Execa "git" (Some "commit" :: _))) as [e3|] eqn:Hcommit.
  { eexists. split; [cbn [snd trace]; rewrite <- !app_assoc; reflexivity |].
    split; [| repeat constructor].
    repeat split; reflexivity. }
  eexists. split; [cbn [snd trace]; rewrite <- !app_assoc; reflexivity |].
  split; [| repeat constructor].
  repeat split; reflexivity.
Qed.

End FinalizerFacts.

(** ** The steps of [fetchTemplate] *)

Section StepFacts.

Variable env : Env.

Lemma requirePwa_step_no (name : string) (s : State) :
  answer_requirePwaSupport env = false ->
  requirePwa_step env name s = (Done tt, add_events [Prompt "requirePwaSupport"] s).
Proof. intros H. destruct s. unfold requirePwa_step. rewrite H. reflexivity. Qed.

Lemma requirePwa_step_yes (name text : string) ms (s : State) :
  answer_requirePwaSupport env = true ->
  fs s !! mevn_json name = Some text ->
  Json.parse text = Some (Json.JObj ms) ->
  let text' :=
    Json.stringify (Json.JObj (Json.obj_set "isPwa" (Json.JBool true) ms)) in
  requirePwa_step env name s
  = (Done tt,
     add_events [ Prompt "requirePwaSupport";
                  Read (mevn_json name);
                  Write (mevn_json name) text' ]
                (with_files (<[mevn_json name := text']> (fs s)) s)).
Proof.
  intros Hyes Hfile Hparse. destruct s as [ac pn pc f tr]. cbn [fs] in Hfile.
  unfold requirePwa_step. rewrite Hyes. run_program.
  rewrite Hfile, Hparse. run_program. rewrite <- !app_assoc. reflexivity.
Qed.

Lemma mode_step_SPA (name : string) (s : State) :
  answer_mode env = SPA ->
  mode_step env name s = (Done tt, add_events [Prompt "mode"] s).
Proof. intros H. destruct s. unfold mode_step. rewrite H. reflexivity. Qed.

Lemma mode_step_Universal (name old : string) (s : State) :
  answer_mode env = Universal ->
  fs s !! nuxt_config_js name = Some old ->
  mode_step env name s
  = (Done tt,
     add_events [ Prompt "mode";
                  Read (nuxt_config_js name);
                  Write (nuxt_config_js name) (patched (Utf8.utf8 old)) ]
                (with_files
                   (<[nuxt_config_js name := patched (Utf8.utf8 old)]> (fs s)) s)).
Proof.
  intros Hmode Hfile. destruct s as [ac pn pc f tr]. cbn [fs] in Hfile.
  unfold mode_step. rewrite Hmode. run_program.
  change (String.eqb (mode_label Universal) "Universal") with true.
  run_program. rewrite Hfile. run_program. rewrite <- !app_assoc.
  cbn [app]. unfold patched. reflexivity.
Qed.

Lemma mode_step_missing (name : string) (s : State) :
  answer_mode env = Universal ->
  fs s !! nuxt_config_js name = None ->
  mode_step env name s
  = (Thrown (ENOENT (nuxt_config_js name)),
     add_events [Prompt "mode"; Read (nuxt_config_js name)] s).
Proof.
  intros Hmode Hfile. destruct s as [ac pn pc f tr]. cbn [fs] in Hfile.
  unfold mode_step. rewrite Hmode. run_program.
  change (String.eqb (mode_label Universal) "Universal") with true.
  run_program. rewrite Hfile. run_program. rewrite <- !app_assoc. reflexivity.
Qed.

(** When the probe fails, nothing else happens. *)
Lemma fetchTemplate_no_client (template : string) (e : error) (s : State) :
  exit_status env probe = Some e ->
  fetchTemplate env template s
  = (Exited 1,
     add_events [Run probe; Report (InstallationMissing "git help -g")] s).
Proof.
  intros Hp. destruct s as [ac pn pc f tr]. unfold probe in *.
  run_program. rewrite Hp. run_program. rewrite <- !app_assoc. reflexivity.
Qed.

(** When the clone fails, the spinner is failed and the error goes on. *)
Lemma fetchTemplate_clone_failed (template : string) (err : error) (s : State) :
  exit_status env probe = None ->
  exit_status env (clone_command template (projectName s)) = Some err ->
  fetchTemplate env template s
  = (Thrown err,
     add_events [ Run probe;
                  SpinnerStart "Fetching the boilerplate template";
                  Run (clone_command template (projectName s));
                  SpinnerFail "Something went wrong" ]
                (with_files
                   (clone_files env (property boilerplate template)
                      (projectName s) (fs s)) s)).
Proof.
  intros Hp Hc. destruct s as [ac pn pc f tr].
  unfold probe, clone_command in *. cbn [projectName] in Hc.
  run_program. rewrite Hp. run_program. rewrite Hc. run_program.
  rewrite <- !app_assoc. reflexivity.
Qed.

(** *** Events each function adds *)

Variable P : event -> Prop.

Lemma emits_run (c : command) : P (Run c) -> emits P (run env c).
Proof.
  intros H. unfold run. apply emits_bind; [now apply emits_emit |]. intros _.
  destruct (exit_status env c); auto with emits_db.
Qed.

Lemma emits_prompt {A} (name : string) (a : A) :
  P (Prompt name) -> emits P (prompt name a).
Proof. intros H. unfold prompt. auto using emits_emit with emits_db. Qed.

Lemma emits_readFileSync (path : string) :
  P (Read path) -> emits P (readFileSync path).
Proof.
  intros H. unfold readFileSync.
  apply emits_bind; [now apply emits_emit |]. intros _.
  apply emits_bind; [apply emits_gets |]. intros files.
  destruct (files !! path); auto with emits_db.
Qed.

Lemma emits_readFileSync_utf8 (path : string) :
  P (Read path) -> emits P (readFileSync_utf8 path).
Proof.
  intros H. unfold readFileSync_utf8.
  apply emits_bind; [now apply emits_readFileSync |]. intros bytes.
  apply emits_ret.
Qed.

Lemma emits_writeFileSync (path text : string) :
  P (Write path text) -> emits P (writeFileSync path text).
Proof. intros H. unfold writeFileSync. auto using emits_emit with emits_db. Qed.

Lemma emits_requirePwa_step (name : string) :
  P (Prompt "requirePwaSupport") ->
  P (Read (mevn_json name)) ->
  (forall text, P (Write (mevn_json name) text)) ->
  emits P (requirePwa_step env name).
Proof.
  intros Hprompt Hread Hwrite. unfold requirePwa_step.
  apply emits_bind; [now apply emits_prompt |]. intros pwa.
  apply emits_when.
  apply emits_bind; [now apply emits_readFileSync |]. intros text.
  destruct (Json.parse text) as [[| | |ms] |]; auto with emits_db.
  now apply emits_writeFileSync.
Qed.

Lemma emits_mode_step (name : string) :
  P (Prompt "mode") ->
  P (Read (nuxt_config_js name)) ->
  (forall text, P (Write (nuxt_config_js name) text)) ->
  emits P (mode_step env name).
Proof.
  intros Hprompt Hread Hwrite. unfold mode_step.
  apply emits_bind; [now apply emits_prompt |]. intros mode.
  apply emits_when.
  apply emits_bind; [now apply emits_readFileSync_utf8 |]. intros text.
  now apply emits_writeFileSync.
Qed.

Lemma emits_mode_step_SPA (name : string) :
  answer_mode env = SPA ->
  P (Prompt "mode") ->
  emits P (mode_step env name).
Proof.
  intros Hmode Hprompt s. rewrite (mode_step_SPA name s Hmode).
  exists [Prompt "mode"]. split; [reflexivity | now repeat constructor].
Qed.

Lemma emits_makeInitialCommit :
  (forall dir, P (Chdir dir)) -> (forall c, P (Run c)) ->
  emits P (makeInitialCommit env).
Proof.
  intros Hchdir Hrun. unfold makeInitialCommit.
  apply emits_bind; [apply emits_gets |]. intros name.
  apply emits_bind; [now apply emits_emit |]. intros _.
  repeat (apply emits_bind; [now apply emits_run |]; intros _).
  now apply emits_run.
Qed.

Lemma emits_showCommandsList :
  (forall text, P (Log text)) ->
  (forall rows, P (LogTable rows)) ->
  (forall dir, P (Chdir dir)) ->
  (forall c, P (Run c)) ->
  (forall e, P (UnhandledRejection e)) ->
  emits P (showCommandsList env).
Proof.
  intros Hlog Htable Hchdir Hrun Hunhandled.
  unfold showCommandsList, console_log.
  repeat
    (lazymatch goal with
     | |- emits _ (bind _ _) =>
         apply emits_bind;
         [ first [ now apply emits_emit | apply emits_gets
                 | apply emits_set_availableCommands | now apply emits_run ]
         | intros ? ]
     end).
  apply emits_detach; [now apply emits_makeInitialCommit | exact Hunhandled].
Qed.

End StepFacts.

(** ** Runs of [fetchTemplate] after the clone *)

Section AfterClone.

Variable env : Env.

Lemma bind_done {A B} (m : M A) (k : A -> M B) (s s' : State) (a : A) :
  m s = (Done a, s') -> bind m k s = k a s'.
Proof. intros H. unfold bind. now rewrite H. Qed.

Lemma bind_thrown {A B} (m : M A) (k : A -> M B) (s s' : State) (e : error) :
  m s = (Thrown e, s') -> bind m k s = (Thrown e, s').
Proof. intros H. unfold bind. now rewrite H. Qed.

Lemma bind_assoc {A B C} (m : M A) (k : A -> M B) (h : B -> M C) (s : State) :
  bind (bind m k) h s = bind m (fun a => bind (k a) h) s.
Proof. unfold bind. destruct (m s) as [[a | e | c] s']; reflexivity. Qed.

Lemma detach_fs (m : M unit) (s : State) : fs (detach m s).2 = fs (m s).2.
Proof. unfold detach. destruct (m s) as [[a | e | c] s']; reflexivity. Qed.

(** Templates other than nuxt: straight to the finalizer. *)
Lemma after_fetch_other (template name : string) (s : State) :
  template <> "nuxt" -> after_fetch env template name s = showCommandsList env s.
Proof.
  intros Hne. unfold after_fetch. apply String.eqb_neq in Hne. rewrite Hne.
  reflexivity.
Qed.

Lemma after_fetch_nuxt (name : string) (s : State) :
  after_fetch env "nuxt" name s
  = bind (requirePwa_step env name)
         (fun _ => mode_step env name >> showCommandsList env) s.
Proof. unfold after_fetch. cbn [String.eqb Ascii.eqb Bool.eqb when]. apply bind_assoc. Qed.

(** After the PWA question, nothing touches mevn.json any more. *)
Lemma keeps_mode_then_finalizer (name : string) :
  keeps (mevn_json name) (mode_step env name >> showCommandsList env).
Proof.
  apply keeps_bind; [| intros _; apply keeps_showCommandsList].
  apply keeps_mode_step. apply mevn_json_not_nuxt_config.
Qed.

(** mevn.json at the end, when PWA support was not asked for. *)
Lemma after_fetch_config (template name text : string) (s : State) :
  (template = "nuxt" -> answer_requirePwaSupport env = false) ->
  fs s !! mevn_json name = Some text ->
  fs (after_fetch env template name s).2 !! mevn_json name = Some text.
Proof.
  intros Hpwa Hfile.
  destruct (String.eqb_spec template "nuxt") as [-> | Hne].
  - rewrite after_fetch_nuxt.
    rewrite (bind_done _ _ _ _ _ (requirePwa_step_no env name s (Hpwa eq_refl))).
    now rewrite keeps_mode_then_finalizer.
  - rewrite after_fetch_other by exact Hne.
    now rewrite keeps_showCommandsList.
Qed.

(** mevn.json at the end, when PWA support was asked for. *)
Lemma after_fetch_pwa (name text : string) ms (s : State) :
  answer_requirePwaSupport env = true ->
  fs s !! mevn_json name = Some text ->
  Json.parse text = Some (Json.JObj ms) ->
  fs (after_fetch env "nuxt" name s).2 !! mevn_json name
  = Some (Json.stringify
            (Json.JObj (Json.obj_set "isPwa" (Json.JBool true) ms))).
Proof.
  intros Hpwa Hfile Hparse. rewrite after_fetch_nuxt.
  rewrite (bind_done _ _ _ _ _ (requirePwa_step_yes env name text ms s Hpwa Hfile Hparse)).
  rewrite keeps_mode_then_finalizer. destruct s. cbn. apply lookup_insert_eq.
Qed.


End AfterClone.

(** ** Events after the clone, and the patched configuration *)

Section AfterCloneEvents.

Variable env : Env.
Variable P : event -> Prop.

Hypothesis P_prompt : forall name, P (Prompt name).
Hypothesis P_log : forall text, P (Log text).
Hypothesis P_table : forall rows, P (LogTable rows).
Hypothesis P_chdir : forall dir, P (Chdir dir).
Hypothesis P_run : forall c, P (Run c).
Hypothesis P_unhandled : forall e, P (UnhandledRejection e).

Lemma emits_after_fetch (template name : string) :
  P (Read (mevn_json name)) ->
  (forall text, P (Write (mevn_json name) text)) ->
  P (Read (nuxt_config_js name)) ->
  (forall text, P (Write (nuxt_config_js name) text)) ->
  emits P (after_fetch env template name).
Proof.
  intros Hr1 Hw1 Hr2 Hw2. unfold after_fetch.
  apply emits_bind; [| intros _; now apply emits_showCommandsList].
  apply emits_when. apply emits_bind.
  - now apply emits_requirePwa_step.
  - intros _. now apply emits_mode_step.
Qed.

Lemma emits_after_fetch_SPA (template name : string) :
  answer_mode env = SPA ->
  P (Read (mevn_json name)) ->
  (forall text, P (Write (mevn_json name) text)) ->
  emits P (after_fetch env template name).
Proof.
  intros Hmode Hr1 Hw1. unfold after_fetch.
  apply emits_bind; [| intros _; now apply emits_showCommandsList].
  apply emits_when. apply emits_bind.
  - now apply emits_requirePwa_step.
  - intros _. now apply emits_mode_step_SPA.
Qed.

End AfterCloneEvents.

Section PatchedFacts.

(** With a line containing [mode]: the first such line is replaced. *)
Lemma patched_first_line (old : string) :
  (exists line, In line (JsString.split LF old) /\ has_mode line = true) ->
  exists i,
    first_match has_mode (JsString.split LF old) i /\
    replaced_line (JsString.split LF old) (JsString.split LF (patched old))
                  i universal_mode_line.
Proof.
  intros Hex.
  destruct (indexOf_find_first has_mode _ Hex) as (i & Hfirst & Hlt & Hidx).
  exists i. split; [exact Hfirst |].
  unfold patched, JsArray.join. cbn [JsArray.elems JsArray.of_list].
  change (JsArray.elems (JsArray.of_list (JsString.split LF old)))
    with (JsString.split LF old).
  fold has_mode. rewrite Hidx, set_in_range by exact Hlt.
  rewrite split_join.
  - repeat split.
    + apply length_insert.
    + now apply list_lookup_insert_eq.
    + intros j Hj. apply list_lookup_insert_ne. congruence.
  - intros Hnil. apply (f_equal length) in Hnil.
    rewrite length_insert in Hnil. cbn in Hnil. lia.
  - apply Forall_insert; [apply split_no_sep | reflexivity].
Qed.

(** Without such a line: the index is -1, no element changes, and the text
    written back is the text read. *)
Lemma patched_no_line (old : string) :
  (forall line, In line (JsString.split LF old) -> has_mode line = false) ->
  let lines := JsString.split LF old in
  JsArray.indexOf (JsArray.find has_mode lines) lines = -1 /\
  JsArray.elems (JsArray.set (JsArray.of_list lines) (-1) universal_mode_line)
  = lines /\
  patched old = old.
Proof.
  intros Hnone lines.
  assert (Hfind : JsArray.find has_mode lines = None) by now apply find_none.
  split; [now rewrite Hfind |]. split; [reflexivity |].
  unfold patched, JsArray.join.
  change (JsArray.elems (JsArray.of_list (JsString.split LF old))) with lines.
  fold has_mode. rewrite Hfind. cbn [JsArray.indexOf].
  rewrite set_negative by lia. apply join_split.
Qed.

End PatchedFacts.

(** ** The whole command *)

Section Workflow.

Variable env : Env.

Lemma initializeProject_after_fetch (appName : string) (s : State) :
  passes_validation env appName ->
  fetch_succeeds env (canonical_key (answer_template env)) appName ->
  fs (initializeProject env appName s).2
  = fs (after_fetch env (canonical_key (answer_template env)) appName
          (fetched env (canonical_key (answer_template env))
             (prepared env appName s))).2.
Proof.
  intros Hvalid [Hprobe Hclone].
  rewrite initializeProject_prepared by exact Hvalid.
  rewrite detach_fs, fetchTemplate_fetched; [reflexivity | exact Hprobe | exact Hclone].
Qed.

Lemma fetched_mevn_json (template appName : string) (s : State) :
  fs (fetched env template (prepared env appName s)) !! mevn_json appName
  = Some (config_text appName (template_label (answer_template env))).
Proof. destruct s. cbn. apply lookup_insert_eq. Qed.


Lemma plain_template_label (c : TemplateChoice) :
  Json.plain (template_label c) = true.
Proof. destruct c; reflexivity. Qed.

Lemma canonical_key_nuxt (c : TemplateChoice) :
  canonical_key c = "nuxt" <-> c = ChNuxtJs.
Proof. destruct c; cbn; split; congruence. Qed.

(** mevn.json at the end of a run that got past the clone. *)
Lemma final_mevn_json (appName : string) (s : State) :
  passes_validation env appName ->
  fetch_succeeds env (canonical_key (answer_template env)) appName ->
  Json.plain appName = true ->
  fs (initializeProject env appName s).2 !! mevn_json appName
  = Some (if String.eqb (canonical_key (answer_template env)) "nuxt"
             && answer_requirePwaSupport env
          then pwa_text appName (template_label (answer_template env))
          else config_text appName (template_label (answer_template env))).
Proof.
  intros Hvalid Hfetch Hplain.
  rewrite initializeProject_after_fetch by assumption.
  destruct (String.eqb_spec (canonical_key (answer_template env)) "nuxt") as [Hn | Hn];
    [destruct (answer_requirePwaSupport env) eqn:Hpwa |]; cbn [andb].
  - rewrite Hn.
    erewrite after_fetch_pwa;
      [reflexivity | exact Hpwa | apply fetched_mevn_json |].
    apply parse_config_text; [exact Hplain | apply plain_template_label].
  - apply after_fetch_config; [intros _; exact Hpwa | apply fetched_mevn_json].
  - apply after_fetch_config; [intros H; contradiction | apply fetched_mevn_json].
Qed.

End Workflow.

(** ** A concrete run *)

(** The events of the run [mevn init my-app] with the answers Nuxt-js, yes
    and Universal. *)
Example sample_run_events :
  trace (initializeProject (sample_env sample_argv ChNuxtJs true Universal)
           "my-app" initial_state).2
  = [ Banner "Mevn CLI" "Light speed setup for MEVN stack based apps.";
      Exists "my-app";
      Prompt "template";
      Run (Shell "git help -g");
      SpinnerStart "Fetching the boilerplate template";
      Run (Execa "git"
             [ Some "clone";
               Some "https://github.com/madlabsinc/mevn-nuxt-boilerplate.git";
               Some "my-app" ]);
      SpinnerStop;
      Write "./my-app/mevn.json" (config_text "my-app" "Nuxt-js");
      Prompt "requirePwaSupport";
      Read "./my-app/mevn.json";
      Write "./my-app/mevn.json" (pwa_text "my-app" "Nuxt-js");
      Prompt "mode";
      Read "./my-app/nuxt.config.js";
      Write "./my-app/nuxt.config.js"
        ("export default {" +:+ String LF (" mode: 'universal'," +:+ String LF "}"));
      Log EmptyString;
      Log " Available commands:-";
      LogTable commands_rows;
      Log EmptyString;
      Log EmptyString;
      Log " Make sure that you've done cd my-app";
      Log EmptyString;
      Log " Warning:  Do not delete the mevn.json file";
      Run (ShellSync "rm -rf my-app/.git");
      Chdir "my-app";
      Run (Execa "git" [Some "init"]);
      Run (Execa "git" [Some "add"; Some "."]);
      Run (Execa "git" [ Some "commit"; Some "-m"; Some "Initial commit";
                         Some "-m"; Some "From Mevn-CLI" ]) ].
Proof. vm_compute. reflexivity. Qed.

(** * The claims *)

(** ** C1 *)

(** C1, counterexample: the user picks Nuxt-js for the project my-app; the
    [template] member of the mevn.json the run leaves behind is "Nuxt-js",
    while the canonical key is "nuxt". *)
Lemma C1_counterexample :
  let env := sample_env sample_argv ChNuxtJs false SPA in
  let final := (initializeProject env "my-app" initial_state).2 in
  canonical_key (answer_template env) = "nuxt" /\
  (exists text,
     fs final !! mevn_json "my-app" = Some text /\
     member "template" text = Some (Json.JStr "Nuxt-js")) /\
  ~ C1_as_stated.
Proof.
  split; [reflexivity |]. split.
  - eexists. split; vm_compute; reflexivity.
  - intros H.
    destruct (H (sample_env sample_argv ChNuxtJs false SPA) "my-app" initial_state)
      as (text & Hfile & Hmember).
    + repeat split; reflexivity.
    + split; reflexivity.
    + reflexivity.
    + vm_compute in Hfile. injection Hfile as <-.
      vm_compute in Hmember. discriminate Hmember.
Qed.

(** C1, amended: the [template] member of mevn.json is the label the user
    picked at the prompt.  For basic, pwa and graphql the label is the
    canonical key; for Nuxt-js the file says "Nuxt-js".  The canonical key is
    what [fetchTemplate] receives, where it selects the repository to
    clone. *)
Theorem C1_template_is_label (env : Env) (appName : string) (s : State) :
  passes_validation env appName ->
  fetch_succeeds env (canonical_key (answer_template env)) appName ->
  Json.plain appName = true ->
  (exists text,
     fs (initializeProject env appName s).2 !! mevn_json appName = Some text /\
     member "template" text
     = Some (Json.JStr (template_label (answer_template env)))) /\
  (answer_template env <> ChNuxtJs ->
     template_label (answer_template env) = canonical_key (answer_template env)) /\
  initializeProject env appName s
  = detach (fetchTemplate env (canonical_key (answer_template env)))
           (prepared env appName s).
Proof.
  intros Hvalid Hfetch Hplain. split; [| split].
  - eexists. split; [now apply final_mevn_json |].
    unfold member.
    destruct (String.eqb (canonical_key (answer_template env)) "nuxt"
              && answer_requirePwaSupport env).
    + rewrite parse_pwa_text by (assumption || apply plain_template_label).
      reflexivity.
    + rewrite parse_config_text by (assumption || apply plain_template_label).
      reflexivity.
  - destruct (answer_template env); [reflexivity .. | congruence].
  - now apply initializeProject_prepared.
Qed.

Lemma C1_template_is_label_witness :
  exists text,
    fs (initializeProject (sample_env sample_argv ChNuxtJs true Universal)
          "my-app" initial_state).2 !! mevn_json "my-app" = Some text /\
    member "template" text = Some (Json.JStr "Nuxt-js").
Proof.
  apply (C1_template_is_label (sample_env sample_argv ChNuxtJs true Universal)
           "my-app" initial_state).
  - repeat split; reflexivity.
  - split; reflexivity.
  - reflexivity.
Defined.

(** ** C2 *)

(** C2: with the choice basic and a validated name, the mevn.json at the
    root of the project denotes exactly the object with the members [name]
    and [template], the latter being "basic"; it has no [isPwa] member. *)
Theorem C2_basic_config (env : Env) (appName : string) (s : State) :
  answer_template env = ChBasic ->
  passes_validation env appName ->
  fetch_succeeds env "basic" appName ->
  Json.plain appName = true ->
  exists text,
    fs (initializeProject env appName s).2 !! mevn_json appName = Some text /\
    text = JsArray.join_list (String LF "")
             [ "{";
               quote "name" +:+ ": " +:+ quote appName +:+ ",";
               quote "template" +:+ ": " +:+ quote "basic";
               "}" ] /\
    Json.parse text
    = Some (Json.JObj [("name", Json.JStr appName); ("template", Json.JStr "basic")]) /\
    member "isPwa" text = None.
Proof.
  intros Hbasic Hvalid Hfetch Hplain.
  pose proof (final_mevn_json env appName s Hvalid) as Hfinal.
  rewrite Hbasic in Hfinal. specialize (Hfinal Hfetch Hplain).
  cbn [canonical_key template_label] in Hfinal.
  change (String.eqb "basic" "nuxt") with false in Hfinal. cbn [andb] in Hfinal.
  exists (config_text appName "basic"). split; [exact Hfinal |].
  split; [reflexivity |].
  unfold member. rewrite parse_config_text by (assumption || reflexivity).
  split; reflexivity.
Qed.

Lemma C2_basic_config_witness :
  exists text,
    fs (initializeProject (sample_env sample_argv ChBasic false SPA)
          "my-app" initial_state).2 !! mevn_json "my-app" = Some text /\
    Json.parse text
    = Some (Json.JObj [("name", Json.JStr "my-app"); ("template", Json.JStr "basic")]).
Proof.
  destruct (C2_basic_config (sample_env sample_argv ChBasic false SPA)
              "my-app" initial_state eq_refl
              (conj eq_refl (conj eq_refl eq_refl))
              (conj eq_refl eq_refl) eq_refl)
    as (text & Hfile & _ & Hparse & _).
  exists text. split; [exact Hfile | exact Hparse].
Defined.

(** ** C3 *)

(** C3: when the clone exits with a status other than 0, [fetchTemplate]
    marks the spinner as failed and rejects with the error of the clone;
    nothing is written (the files are as the clone left them, and no write
    is among the events), and the finalizer does not run. *)
Theorem C3_clone_failure (env : Env) (template : string) (err : error) (s : State) :
  exit_status env probe = None ->
  exit_status env (clone_command template (projectName s)) = Some err ->
  let r := fetchTemplate env template s in
  r.1 = Thrown err /\
  fs r.2 = cloned env template (projectName s) s /\
  exists evs,
    added s r.2 evs /\
    evs = [ Run probe;
            SpinnerStart "Fetching the boilerplate template";
            Run (clone_command template (projectName s));
            SpinnerFail "Something went wrong" ] /\
    occurrences is_write evs = 0%nat /\
    occurrences finalizer_event evs = 0%nat.
Proof.
  intros Hprobe Hclone r. subst r.
  rewrite (fetchTemplate_clone_failed env template err s Hprobe Hclone).
  split; [reflexivity |]. split; [reflexivity |].
  eexists. split; [reflexivity |]. split; [reflexivity |].
  split; reflexivity.
Qed.

Lemma C3_clone_failure_witness :
  (fetchTemplate offline_env "basic" (prepared offline_env "my-app" initial_state)).1
  = Thrown (ProcessError 128 "fatal: unable to access").
Proof.
  apply (C3_clone_failure offline_env "basic"
           (ProcessError 128 "fatal: unable to access")
           (prepared offline_env "my-app" initial_state)); reflexivity.
Defined.

(** ** C4 *)




(** ** C5 *)

Lemma keeps_after_fetch_SPA (env : Env) (template name : string) :
  answer_mode env = SPA ->
  keeps (nuxt_config_js name) (after_fetch env template name).
Proof.
  intros Hmode. unfold after_fetch.
  apply keeps_bind; [| intros _; apply keeps_showCommandsList].
  apply keeps_when. apply keeps_bind.
  - apply keeps_requirePwa_step. intros H. symmetry in H.
    now apply mevn_json_not_nuxt_config in H.
  - intros _ s. rewrite (mode_step_SPA env name s Hmode). now destruct s.
Qed.

Lemma mevn_json_untouched_nuxt_config (name : string) :
  String.eqb (mevn_json name) (nuxt_config_js name) = false.
Proof. apply String.eqb_neq, mevn_json_not_nuxt_config. Qed.

(** C5: with the mode SPA, no event of [fetchTemplate] reads or writes
    nuxt.config.js, and the file is at the end what the clone made it (or
    what it was, when the client is missing and nothing is cloned). *)
Theorem C5_spa_leaves_config (env : Env) (template : string) (s : State) :
  answer_mode env = SPA ->
  let r := fetchTemplate env template s in
  let path := nuxt_config_js (projectName s) in
  (exists evs, added s r.2 evs /\ Forall (fun e => touches path e = false) evs) /\
  (exit_status env probe = None ->
     fs r.2 !! path = cloned env template (projectName s) s !! path) /\
  (exit_status env probe <> None -> fs r.2 = fs s).
Proof.
  intros Hmode. cbv zeta.
  destruct (exit_status env probe) as [e0|] eqn:Hprobe.
  - rewrite (fetchTemplate_no_client env template e0 s Hprobe).
    split; [| split; [discriminate | reflexivity]].
    eexists. split; [reflexivity | repeat constructor].
  - destruct (exit_status env (clone_command template (projectName s)))
      as [err|] eqn:Hclone.
    + rewrite (fetchTemplate_clone_failed env template err s Hprobe Hclone).
      split; [| split; [reflexivity | congruence]].
      eexists. split; [reflexivity | repeat constructor].
    + rewrite (fetchTemplate_fetched env template s Hprobe Hclone).
      fold (after_fetch env template (projectName s)).
      split; [| split; [intros _ | congruence]].
      * destruct (emits_after_fetch_SPA env
                    (fun e => touches (nuxt_config_js (projectName s)) e = false)
                    (fun _ => eq_refl) (fun _ => eq_refl) (fun _ => eq_refl)
                    (fun _ => eq_refl) (fun _ => eq_refl) (fun _ => eq_refl)
                    template (projectName s) Hmode
                    (mevn_json_untouched_nuxt_config _)
                    (fun _ => mevn_json_untouched_nuxt_config _)
                    (fetched env template s))
          as (evs & Hadd & Hall).
        exists ([ Run probe;
                  SpinnerStart "Fetching the boilerplate template";
                  Run (clone_command template (projectName s));
                  SpinnerStop;
                  Write (mevn_json (projectName s))
                    (JsArray.join_list (String LF "") (projectConfig s)) ] ++ evs).
        split.
        -- unfold added in *. rewrite Hadd. destruct s. cbn.
           now rewrite <- app_assoc.
        -- apply Forall_app. split; [| exact Hall].
           repeat constructor. apply mevn_json_untouched_nuxt_config.
      * rewrite keeps_after_fetch_SPA by exact Hmode.
        destruct s. cbn. apply lookup_insert_ne, mevn_json_not_nuxt_config.
Qed.

Lemma C5_spa_leaves_config_witness :
  fs (fetchTemplate (sample_env sample_argv ChNuxtJs true SPA) "nuxt"
        (prepared (sample_env sample_argv ChNuxtJs true SPA) "my-app" initial_state)).2
    !! nuxt_config_js "my-app"
  = Some sample_nuxt_config.
Proof.
  pose proof (C5_spa_leaves_config (sample_env sample_argv ChNuxtJs true SPA) "nuxt"
                (prepared (sample_env sample_argv ChNuxtJs true SPA) "my-app"
                   initial_state) eq_refl) as (_ & Hfile & _).
  exact (eq_trans (Hfile eq_refl) eq_refl).
Defined.

(** ** C6 *)

(** C6, counterexample: [mevn init my-app ''].  The argument at position 4
    is there and does not start with a dash, but it is the empty string,
    which the test takes for false: the command goes on and clones. *)
Lemma C6_counterexample :
  let env := sample_env (sample_argv ++ [""]) ChBasic false SPA in
  let r := initializeProject env "my-app" initial_state in
  argv env !! 4%nat = Some "" /\
  JsString.startsWith "-" "" = false /\
  r.1 = Done tt /\
  In (Run (clone_command "basic" "my-app")) (trace r.2) /\
  ~ C6_as_stated.
Proof.
  split; [reflexivity |]. split; [reflexivity |].
  split; [reflexivity |]. split.
  - vm_compute. tauto.
  - intros H.
    destruct (H (sample_env (sample_argv ++ [""]) ChBasic false SPA)
                "my-app" initial_state "" eq_refl eq_refl) as [code Hcode].
    vm_compute in Hcode. discriminate Hcode.
Qed.

(** C6, amended: a non-empty argument at position 4 that does not start
    with a dash, an invalid package name and an existing directory each make
    the command exit with status 1, and they are looked for in this order.
    Up to the exit no file is read or written, no subprocess is started and
    no question is asked: the events are the banner, for the third reason
    the probe for the directory, and the message. *)
Theorem C6_rejected_before_io (env : Env) (appName : string) (s : State)
    (m : message) (probes : list event) :
  rejected env appName m probes ->
  let r := initializeProject env appName s in
  r.1 = Exited 1 /\
  fs r.2 = fs s /\
  added s r.2
    (Banner "Mevn CLI" "Light speed setup for MEVN stack based apps."
       :: probes ++ [Report m]).
Proof.
  intros Hrej r. subst r. destruct s as [ac pn pc f tr].
  destruct Hrej as [a Ha Hne Hdash | Hstray Hname | Hstray Hname Hdir].
  - assert (Hstray : hasMultipleProjectNameArgs env = true).
    { unfold hasMultipleProjectNameArgs. rewrite Ha, Hdash.
      destruct a; [congruence | reflexivity]. }
    unfold initializeProject. rewrite Hstray. run_program.
    repeat split. rewrite <- ?app_assoc. reflexivity.
  - unfold initializeProject. rewrite Hstray, Hname. run_program.
    repeat split. rewrite <- ?app_assoc. reflexivity.
  - unfold initializeProject. rewrite Hstray, Hname. run_program.
    rewrite Hdir. run_program.
    repeat split. rewrite <- ?app_assoc. reflexivity.
Qed.

Lemma C6_rejected_before_io_witness :
  (initializeProject (sample_env (sample_argv ++ ["other"]) ChBasic false SPA)
     "my-app" initial_state).1 = Exited 1 /\
  (initializeProject (sample_env sample_argv ChBasic false SPA)
     "" initial_state).1 = Exited 1 /\
  (initializeProject taken_env "my-app" initial_state).1 = Exited 1.
Proof.
  split; [| split].
  - apply (C6_rejected_before_io
             (sample_env (sample_argv ++ ["other"]) ChBasic false SPA)
             "my-app" initial_state StrayArgs []).
    apply (rejected_stray _ _ "other"); [reflexivity | discriminate | reflexivity].
  - apply (C6_rejected_before_io (sample_env sample_argv ChBasic false SPA)
             "" initial_state (InvalidProjectName "") []).
    apply rejected_name; reflexivity.
  - apply (C6_rejected_before_io taken_env "my-app" initial_state
             (DirectoryExistsInPath "my-app") [Exists "my-app"]).
    apply rejected_directory; reflexivity.
Defined.

(** ** C7 *)

(** C7: the first thing [fetchTemplate] does is to run the probe.  When the
    probe fails the process exits with status 1 after reporting it, and
    nothing else has happened.  On every path, a clone among the events
    comes after the probe, and the probe had exit status 0. *)
Theorem C7_probe_before_clone (env : Env) (template : string) (s : State) :
  let r := fetchTemplate env template s in
  exists rest,
    added s r.2 (Run probe :: rest) /\
    (forall e, exit_status env probe = Some e ->
       r.1 = Exited 1 /\
       rest = [Report (InstallationMissing "git help -g")] /\
       fs r.2 = fs s) /\
    (forall before e after,
       Run probe :: rest = before ++ e :: after ->
       is_git "clone" e = true ->
       exit_status env probe = None /\ In (Run probe) before).
Proof.
  cbv zeta.
  assert (Hfirst : forall rest before e after,
            Run probe :: rest = before ++ e :: after ->
            is_git "clone" e = true -> In (Run probe) before).
  { intros rest [|b before] e after Heq Hclone; cbn in Heq; injection Heq.
    - intros _ <-. discriminate Hclone.
    - intros _ <-. now left. }
  destruct (exit_status env probe) as [e0|] eqn:Hprobe.
  - rewrite (fetchTemplate_no_client env template e0 s Hprobe).
    exists [Report (InstallationMissing "git help -g")].
    split; [reflexivity |]. split; [intros e _; repeat split |].
    intros before e after Heq Hclone. exfalso.
    assert (Hin : In e [Run probe; Report (InstallationMissing "git help -g")])
      by (rewrite Heq; apply in_elt).
    destruct Hin as [<- | [<- | []]]; discriminate Hclone.
  - destruct (exit_status env (clone_command template (projectName s)))
      as [err|] eqn:Hclone.
    + rewrite (fetchTemplate_clone_failed env template err s Hprobe Hclone).
      eexists. split; [reflexivity |]. split; [intros e He; discriminate He |].
      intros before e after Heq He. split; [reflexivity | eauto].
    + rewrite (fetchTemplate_fetched env template s Hprobe Hclone).
      destruct (emits_after_fetch env (fun _ => True)
                  (fun _ => I) (fun _ => I) (fun _ => I) (fun _ => I)
                  (fun _ => I) (fun _ => I) template (projectName s)
                  I (fun _ => I) I (fun _ => I) (fetched env template s))
        as (evs & Hadd & _).
      exists ([ SpinnerStart "Fetching the boilerplate template";
                Run (clone_command template (projectName s));
                SpinnerStop;
                Write (mevn_json (projectName s))
                  (JsArray.join_list (String LF "") (projectConfig s)) ] ++ evs).
      split; [| split; [intros e He; discriminate He |]].
      * unfold added in *. fold (after_fetch env template (projectName s)).
        rewrite Hadd. destruct s. cbn. now rewrite <- app_assoc.
      * intros before e after Heq He. split; [reflexivity | eauto].
Qed.

Lemma C7_probe_before_clone_witness :
  exists rest,
    added initial_state
      (fetchTemplate (sample_env sample_argv ChBasic false SPA) "basic" initial_state).2
      (Run probe :: rest).
Proof.
  destruct (C7_probe_before_clone (sample_env sample_argv ChBasic false SPA)
              "basic" initial_state) as (rest & Hadd & _).
  exists rest. exact Hadd.
Defined.

(** ** C8 *)

Lemma finalizer_event_false (e : event) :
  finalizer_event e = false ->
  is_table e = false /\ is_history_removal e = false /\ is_chdir e = false /\
  is_git "init" e = false /\ is_git "add" e = false /\ is_git "commit" e = false.
Proof.
  unfold finalizer_event. intros H.
  repeat (apply orb_false_iff in H as [H ?]). tauto.
Qed.

Lemma occurrences_after (kind : event -> bool) (pre evs : list event) :
  (forall e, finalizer_event e = false -> kind e = false) ->
  Forall (fun e => finalizer_event e = false) pre ->
  occurrences kind (pre ++ evs) = occurrences kind evs.
Proof.
  intros Hkind Hpre. rewrite occurrences_app, occurrences_none; [reflexivity |].
  eapply Forall_impl; [exact Hpre | exact Hkind].
Qed.

(** Events that are not the finalizer's, put before a run of the finalizer,
    do not change how often it ran. *)
Lemma finalized_once_after (env : Env) (name : string) (pre evs : list event) :
  Forall (fun e => finalizer_event e = false) pre ->
  finalized_once env name evs ->
  finalized_once env name (pre ++ evs).
Proof.
  intros Hpre. unfold finalized_once.
  rewrite !(occurrences_after _ pre evs) by
    (assumption || (intros e He; apply finalizer_event_false in He; tauto)).
  trivial.
Qed.

Section FollowUp.

Variable env : Env.

Lemma requirePwa_step_done (name : string) (s : State) :
  (answer_requirePwaSupport env = true ->
     exists text ms,
       fs s !! mevn_json name = Some text /\
       Json.parse text = Some (Json.JObj ms)) ->
  exists s' evs,
    requirePwa_step env name s = (Done tt, s') /\
    added s s' evs /\
    Forall (fun e => finalizer_event e = false) evs /\
    projectName s' = projectName s /\
    fs s' !! nuxt_config_js name = fs s !! nuxt_config_js name.
Proof.
  intros Hread. destruct (answer_requirePwaSupport env) eqn:Hpwa.
  - destruct (Hread eq_refl) as (text & ms & Hfile & Hparse).
    do 2 eexists. split; [exact (requirePwa_step_yes env name text ms s Hpwa Hfile Hparse) |].
    destruct s. cbn.
    split; [reflexivity |]. split; [repeat constructor |]. split; [reflexivity |].
    apply lookup_insert_ne, mevn_json_not_nuxt_config.
  - do 2 eexists. split; [exact (requirePwa_step_no env name s Hpwa) |].
    destruct s. cbn.
    split; [reflexivity |]. split; [repeat constructor |]. split; reflexivity.
Qed.

Lemma mode_step_done (name : string) (s : State) :
  (answer_mode env = Universal -> is_Some (fs s !! nuxt_config_js name)) ->
  exists s' evs,
    mode_step env name s = (Done tt, s') /\
    added s s' evs /\
    Forall (fun e => finalizer_event e = false) evs /\
    projectName s' = projectName s.
Proof.
  intros Hread. destruct (answer_mode env) eqn:Hmode.
  - destruct (Hread eq_refl) as [old Hfile].
    do 2 eexists. split; [exact (mode_step_Universal env name old s Hmode Hfile) |].
    destruct s. cbn.
    split; [reflexivity |]. split; [repeat constructor | reflexivity].
  - do 2 eexists. split; [exact (mode_step_SPA env name s Hmode) |].
    destruct s. cbn.
    split; [reflexivity |]. split; [repeat constructor | reflexivity].
Qed.

(** Once mevn.json is written: if the two steps of the nuxt template find
    what they read, the finalizer runs, once. *)
Lemma after_fetch_finalizes (template name : string) (s : State) :
  (template = "nuxt" -> answer_requirePwaSupport env = true ->
     exists text ms,
       fs s !! mevn_json name = Some text /\
       Json.parse text = Some (Json.JObj ms)) ->
  (template = "nuxt" -> answer_mode env = Universal ->
     is_Some (fs s !! nuxt_config_js name)) ->
  exists evs,
    added s (after_fetch env template name s).2 evs /\
    finalized_once env (projectName s) evs.
Proof.
  intros Hpwa Hmode.
  destruct (String.eqb_spec template "nuxt") as [-> | Hother].
  - destruct (requirePwa_step_done name s (Hpwa eq_refl))
      as (s1 & evs1 & Hrun1 & Hadd1 & Hall1 & Hname1 & Hfile1).
    destruct (mode_step_done name s1) as (s2 & evs2 & Hrun2 & Hadd2 & Hall2 & Hname2).
    { rewrite Hfile1. exact (Hmode eq_refl). }
    destruct (showCommandsList_once env s2) as (evs3 & Hadd3 & Hfin & _).
    rewrite after_fetch_nuxt, (bind_done _ _ _ _ _ Hrun1), (bind_done _ _ _ _ _ Hrun2).
    exists (evs1 ++ evs2 ++ evs3). split.
    + unfold added in *. now rewrite Hadd3, Hadd2, Hadd1, <- !app_assoc.
    + rewrite Hname2, Hname1 in Hfin.
      now repeat apply finalized_once_after.
  - rewrite after_fetch_other by exact Hother.
    destruct (showCommandsList_once env s) as (evs & Hadd & Hfin & _).
    exists evs. split; assumption.
Qed.

End FollowUp.

(** C8, counterexample: the template is nuxt, the mode Universal, and the
    clone, which exits with 0, has no nuxt.config.js.  Reading the file
    throws, [fetchTemplate] rejects, and the finalizer never runs. *)
Lemma C8_counterexample :
  let s := prepared bare_env "my-app" initial_state in
  let r := fetchTemplate bare_env "nuxt" s in
  fetch_succeeds bare_env "nuxt" "my-app" /\
  r.1 = Thrown (ENOENT (nuxt_config_js "my-app")) /\
  occurrences finalizer_event (trace r.2) = 0%nat /\
  ~ C8_as_stated.
Proof.
  split; [split; reflexivity |]. split; [reflexivity |]. split; [reflexivity |].
  intros H.
  destruct (H bare_env ChNuxtJs (prepared bare_env "my-app" initial_state))
    as (evs & Hadd & Htable & _).
  - split; reflexivity.
  - unfold added in Hadd. vm_compute in Hadd. injection Hadd as <-.
    vm_compute in Htable. discriminate Htable.
Qed.

(** C8, amended: after a successful clone and the write of mevn.json the
    finalizer runs exactly once for every template, provided the two steps
    of the nuxt template find what they read (mevn.json parses to an object
    when PWA support is asked for, nuxt.config.js is there when the mode is
    Universal); the other templates go to the finalizer directly.  The
    command table is printed once and the history removal is started once;
    the initial commit is started once when the removal succeeds, and each
    of its git commands once when the one before it succeeds. *)
Theorem C8_finalizer_once (env : Env) (template : string) (s : State) :
  fetch_succeeds env template (projectName s) ->
  (template = "nuxt" -> answer_requirePwaSupport env = true ->
     exists ms,
       Json.parse (JsArray.join_list (String LF "") (projectConfig s))
       = Some (Json.JObj ms)) ->
  (template = "nuxt" -> answer_mode env = Universal ->
     is_Some (cloned env template (projectName s) s
                !! nuxt_config_js (projectName s))) ->
  exists evs,
    added s (fetchTemplate env template s).2 evs /\
    finalized_once env (projectName s) evs.
Proof.
  intros [Hprobe Hclone] Hpwa Hmode.
  rewrite (fetchTemplate_fetched env template s Hprobe Hclone).
  fold (after_fetch env template (projectName s)).
  destruct (after_fetch_finalizes env template (projectName s)
              (fetched env template s)) as (evs & Hadd & Hfin).
  - intros Ht Hp. destruct (Hpwa Ht Hp) as [ms Hms].
    exists (JsArray.join_list (String LF "") (projectConfig s)), ms.
    split; [| exact Hms]. destruct s. cbn. apply lookup_insert_eq.
  - intros Ht Hm. specialize (Hmode Ht Hm).
    destruct s. cbn in *. rewrite lookup_insert_ne; [exact Hmode |].
    apply mevn_json_not_nuxt_config.
  - exists ([ Run probe;
              SpinnerStart "Fetching the boilerplate template";
              Run (clone_command template (projectName s));
              SpinnerStop;
              Write (mevn_json (projectName s))
                (JsArray.join_list (String LF "") (projectConfig s)) ] ++ evs).
    split.
    + unfold added in *. rewrite Hadd. destruct s. cbn. now rewrite <- app_assoc.
    + apply finalized_once_after; [| destruct s; exact Hfin].
      repeat constructor.
Qed.

Lemma C8_finalizer_once_witness :
  exists evs,
    added (prepared (sample_env sample_argv ChNuxtJs true Universal) "my-app" initial_state)
      (fetchTemplate (sample_env sample_argv ChNuxtJs true Universal) "nuxt"
         (prepared (sample_env sample_argv ChNuxtJs true Universal) "my-app"
            initial_state)).2 evs /\
    finalized_once (sample_env sample_argv ChNuxtJs true Universal) "my-app" evs.
Proof.
  apply (C8_finalizer_once (sample_env sample_argv ChNuxtJs true Universal) "nuxt"
           (prepared (sample_env sample_argv ChNuxtJs true Universal) "my-app"
              initial_state)).
  - split; reflexivity.
  - intros _ _. eexists. vm_compute. reflexivity.
  - intros _ _. eexists. reflexivity.
Defined.

(** ** C9 *)

(** C9, counterexample: nuxt.config.js holds the five bytes
    [61 FF 62 0A 63].  No line contains [mode]; the step decodes the byte FF
    to U+FFFD and writes the seven bytes [61 EF BF BD 62 0A 63]: the file
    has changed. *)
Lemma C9_counterexample :
  let env := sample_env sample_argv ChNuxtJs false Universal in
  let path := nuxt_config_js "my-app" in
  let s := with_files {[ path := ill_formed_config ]} initial_state in
  (forall line,
     In line (JsString.split LF ill_formed_config) -> has_mode line = false) /\
  fs (mode_step env "my-app" s).2 !! path
  = Some ("a" +:+ Utf8.replacement +:+ "b" +:+ String LF "c") /\
  ~ C9_as_stated.
Proof.
  split.
  { intros line Hin. vm_compute in Hin.
    destruct Hin as [<- | [<- | []]]; reflexivity. }
  split; [vm_compute; reflexivity |].
  intros H.
  destruct (H (sample_env sample_argv ChNuxtJs false Universal) "my-app"
              ill_formed_config
              (with_files {[ nuxt_config_js "my-app" := ill_formed_config ]}
                 initial_state)) as (_ & _ & Hrun).
  - reflexivity.
  - reflexivity.
  - intros line Hin. vm_compute in Hin.
    destruct Hin as [<- | [<- | []]]; reflexivity.
  - apply (f_equal (fun r => trace r.2)) in Hrun.
    vm_compute in Hrun. discriminate Hrun.
Qed.

(** C9, amended: let [text] be nuxt.config.js decoded as UTF-8 (the file
    itself when it is well-formed UTF-8).  When no line of [text] contains
    [mode], the index the mode step computes is -1, the assignment at -1
    changes no element of the array, and the file is written back as
    [text]; when the file is well-formed UTF-8 it keeps the content it had,
    and the state after the step differs from the state before by three
    events only. *)
Theorem C9_no_mode_line (env : Env) (name old text : string) (s : State) :
  answer_mode env = Universal ->
  fs s !! nuxt_config_js name = Some old ->
  Utf8.utf8 old = text ->
  (forall line, In line (JsString.split LF text) -> has_mode line = false) ->
  let lines := JsString.split LF text in
  JsArray.indexOf (JsArray.find has_mode lines) lines = -1 /\
  JsArray.elems (JsArray.set (JsArray.of_list lines) (-1) universal_mode_line)
  = lines /\
  mode_step env name s
  = (Done tt,
     add_events [ Prompt "mode";
                  Read (nuxt_config_js name);
                  Write (nuxt_config_js name) text ]
       (with_files (<[nuxt_config_js name := text]> (fs s)) s)) /\
  (text = old ->
   mode_step env name s
   = (Done tt,
      add_events [ Prompt "mode";
                   Read (nuxt_config_js name);
                   Write (nuxt_config_js name) old ] s)).
Proof.
  intros Hmode Hfile Htext Hnone lines. subst text.
  destruct (patched_no_line (Utf8.utf8 old) Hnone) as (Hidx & Helems & Hpatched).
  split; [exact Hidx |]. split; [exact Helems |].
  rewrite (mode_step_Universal env name old s Hmode Hfile), Hpatched.
  split; [reflexivity |].
  intros ->. destruct s as [ac pn pc f tr]. cbn [fs] in Hfile.
  unfold add_events, with_files. cbn. now rewrite insert_id.
Qed.

Lemma C9_no_mode_line_witness :
  mode_step (sample_env sample_argv ChNuxtJs false Universal) "my-app"
    (with_files {[ nuxt_config_js "my-app" := "a" +:+ String LF "b" ]} initial_state)
  = (Done tt,
     add_events [ Prompt "mode";
                  Read (nuxt_config_js "my-app");
                  Write (nuxt_config_js "my-app") ("a" +:+ String LF "b") ]
       (with_files {[ nuxt_config_js "my-app" := "a" +:+ String LF "b" ]}
          initial_state)).
Proof.
  apply (C9_no_mode_line (sample_env sample_argv ChNuxtJs false Universal)
           "my-app" ("a" +:+ String LF "b") ("a" +:+ String LF "b")).
  - reflexivity.
  - reflexivity.
  - reflexivity.
  - intros line Hin. vm_compute in Hin.
    destruct Hin as [<- | [<- | []]]; reflexivity.
  - reflexivity.
Defined.

(** ** C10 *)

Lemma obj_get_app (key : string) (ms ms' : list (string * Json.value)) (v : Json.value) :
  Json.obj_get key ms = Some v -> Json.obj_get key (ms ++ ms') = Some v.
Proof.
  induction ms as [|[k w] ms IH]; cbn [Json.obj_get app]; [discriminate |].
  destruct (String.eqb k key); [trivial | exact IH].
Qed.

(** C10: the PWA step reads mevn.json, adds [isPwa: true] and writes the
    file back; every member of the file first written, [name] and
    [template] among them, is in the file written back with the value it
    had. *)
Theorem C10_pwa_rewrite_keeps_members (env : Env) (appName : string) (s : State) :
  answer_template env = ChNuxtJs ->
  answer_requirePwaSupport env = true ->
  passes_validation env appName ->
  fetch_succeeds env "nuxt" appName ->
  Json.plain appName = true ->
  let asked := fetched env "nuxt" (prepared env appName s) in
  let initial := config_text appName "Nuxt-js" in
  let rewritten := pwa_text appName "Nuxt-js" in
  fs asked !! mevn_json appName = Some initial /\
  requirePwa_step env appName asked
  = (Done tt,
     add_events [ Prompt "requirePwaSupport";
                  Read (mevn_json appName);
                  Write (mevn_json appName) rewritten ]
       (with_files (<[mevn_json appName := rewritten]> (fs asked)) asked)) /\
  fs (initializeProject env appName s).2 !! mevn_json appName = Some rewritten /\
  member "name" initial = Some (Json.JStr appName) /\
  member "template" initial = Some (Json.JStr "Nuxt-js") /\
  (forall key v, member key initial = Some v -> member key rewritten = Some v) /\
  member "isPwa" rewritten = Some (Json.JBool true).
Proof.
  intros Hnuxt Hpwa Hvalid Hfetch Hplain asked initial rewritten.
  assert (Hinitial : Json.parse initial
                     = Some (Json.JObj (config_object appName "Nuxt-js")))
    by now apply parse_config_text.
  assert (Hrewritten : Json.parse rewritten
                       = Some (Json.JObj (config_object appName "Nuxt-js"
                                            ++ [("isPwa", Json.JBool true)])))
    by now apply parse_pwa_text.
  assert (Hfile : fs asked !! mevn_json appName = Some initial).
  { subst asked initial. rewrite fetched_mevn_json. now rewrite Hnuxt. }
  split; [exact Hfile |]. split; [| split].
  - exact (requirePwa_step_yes env appName initial _ asked Hpwa Hfile Hinitial).
  - pose proof (final_mevn_json env appName s Hvalid) as Hfinal.
    rewrite Hnuxt, Hpwa in Hfinal. now apply Hfinal.
  - unfold member. rewrite Hinitial, Hrewritten.
    repeat split; try reflexivity.
    intros key v. apply obj_get_app.
Qed.

Lemma C10_pwa_rewrite_keeps_members_witness :
  member "name"
    (pwa_text "my-app" "Nuxt-js") = Some (Json.JStr "my-app").
Proof.
  pose proof (C10_pwa_rewrite_keeps_members
                (sample_env sample_argv ChNuxtJs true SPA) "my-app" initial_state
                eq_refl eq_refl
                (conj eq_refl (conj eq_refl eq_refl))
                (conj eq_refl eq_refl) eq_refl)
    as (_ & _ & _ & Hname & _ & Hkeep & _).
  exact (Hkeep "name" _ Hname).
Defined.

(** * Further properties of init.js *)

(** ** [makeInitialCommit] and [showCommandsList] *)

(** X1: [makeInitialCommit] changes the directory first and then starts
    [git init], [git add .] and [git commit] one after the other, stopping
    at the first that fails: [git add] is started only if [git init]
    succeeded, [git commit] only if both did, and the promise is rejected
    with the error of the first failing command.  No file is touched. *)
Theorem makeInitialCommit_stops_at_first_failure (env : Env) (s : State) :
  let r := makeInitialCommit env s in
  let ran := (run_all env initial_commit_commands).1 in
  added s r.2 (Chdir (projectName s) :: List.map Run ran) /\
  r.1 = match (run_all env initial_commit_commands).2 with
        | None => Done tt
        | Some e => Thrown e
        end /\
  (In git_add ran <-> exit_status env git_init = None) /\
  (In git_commit ran <->
     exit_status env git_init = None /\ exit_status env git_add = None) /\
  fs r.2 = fs s.
Proof.
  destruct s as [ac pn pc f tr].
  unfold initial_commit_commands, git_init, git_add, git_commit.
  cbn [run_all]. run_program.
  destruct (exit_status env (Execa "git" [Some "init"])) as [e1|] eqn:H1;
    [| run_program;
       destruct (exit_status env (Execa "git" [Some "add"; Some "."])) as [e2|] eqn:H2;
       [| run_program;
          destruct (exit_status env (Execa "git" (Some "commit" :: _))) as [e3|] eqn:H3]];
    cbn [fst snd trace fs List.map In];
    (split; [now rewrite <- !app_assoc |]);
    (split; [reflexivity |]);
    (split; [| split; [| reflexivity]]);
    intuition congruence.
Qed.

(** X2: when the removal of the history fails, [showCommandsList] throws the
    error of the removal after having printed the table; the initial commit
    is not started: no change of directory, no git command. *)
Theorem showCommandsList_removal_failure (env : Env) (s : State) (e : error) :
  exit_status env (removal_command env (projectName s)) = Some e ->
  let r := showCommandsList env s in
  r.1 = Thrown e /\
  exists evs,
    added s r.2 evs /\
    occurrences is_table evs = 1%nat /\
    last evs = Some (Run (removal_command env (projectName s))) /\
    occurrences is_chdir evs = 0%nat /\
    (forall sub, occurrences (is_git sub) evs = 0%nat) /\
    occurrences is_unhandled evs = 0%nat.
Proof.
  intros Hrm. destruct s as [ac pn pc f tr].
  unfold removal_command in *. cbn [projectName] in Hrm.
  run_program. rewrite Hrm. cbn [fst snd trace].
  split; [reflexivity |].
  eexists. split; [rewrite <- !app_assoc; reflexivity |].
  repeat split.
Qed.

Lemma showCommandsList_removal_failure_witness :
  (showCommandsList windows_env initial_state).1
  = Thrown (ProcessError 1 "The system cannot find the file").
Proof.
  apply showCommandsList_removal_failure. reflexivity.
Defined.

(** X3: when the removal succeeds, [showCommandsList] returns normally
    whatever the git commands of the initial commit do: the commit is not
    awaited, and the error of a failing git command ends up as an unhandled
    rejection, the last event of the run. *)
Theorem showCommandsList_commit_failure_unhandled (env : Env) (s : State) :
  exit_status env (removal_command env (projectName s)) = None ->
  let r := showCommandsList env s in
  r.1 = Done tt /\
  exists evs,
    added s r.2 evs /\
    match (run_all env initial_commit_commands).2 with
    | Some e =>
        last evs = Some (UnhandledRejection e) /\
        occurrences is_unhandled evs = 1%nat
    | None =>
        last evs = Some (Run git_commit) /\
        occurrences is_unhandled evs = 0%nat
    end.
Proof.
  intros Hrm. destruct s as [ac pn pc f tr].
  unfold removal_command, initial_commit_commands, git_init, git_add, git_commit in *.
  cbn [projectName] in Hrm. cbn [run_all].
  run_program. rewrite Hrm. run_program.
  destruct (exit_status env (Execa "git" [Some "init"])) as [e1|] eqn:H1.
  { cbn [fst snd trace]. split; [reflexivity |].
    eexists. split; [rewrite <- !app_assoc; reflexivity | split; reflexivity]. }
  run_program.
  destruct (exit_status env (Execa "git" [Some "add"; Some "."])) as [e2|] eqn:H2.
  { cbn [fst snd trace]. split; [reflexivity |].
    eexists. split; [rewrite <- !app_assoc; reflexivity | split; reflexivity]. }
  run_program.
  destruct (exit_status env (Execa "git" (Some "commit" :: _))) as [e3|] eqn:H3;
    cbn [fst snd trace]; (split; [reflexivity |]);
    eexists; (split; [rewrite <- !app_assoc; reflexivity | split; reflexivity]).
Qed.

Lemma showCommandsList_commit_failure_unhandled_witness :
  (showCommandsList no_identity_env initial_state).1 = Done tt.
Proof.
  apply showCommandsList_commit_failure_unhandled. reflexivity.
Defined.

(** X4: the table of commands is a variable of the module to which every
    call of [showCommandsList] adds its eight rows, whatever the subprocesses
    do, and the table printed is the whole table: a second call in the same
    process prints every row twice. *)
Theorem showCommandsList_table_accumulates (env : Env) (s : State) :
  let r := showCommandsList env s in
  availableCommands r.2 = availableCommands s ++ commands_rows /\
  (exists evs,
     added s r.2 evs /\
     List.filter is_table evs = [LogTable (availableCommands s ++ commands_rows)]) /\
  availableCommands (showCommandsList env r.2).2
  = availableCommands s ++ commands_rows ++ commands_rows.
Proof.
  assert (Hone : forall s0,
            availableCommands (showCommandsList env s0).2
            = availableCommands s0 ++ commands_rows /\
            exists evs,
              added s0 (showCommandsList env s0).2 evs /\
              List.filter is_table evs
              = [LogTable (availableCommands s0 ++ commands_rows)]).
  { intros [ac pn pc f tr]. run_program.
    destruct (exit_status env (ShellSync _)) as [e0|];
      [| run_program;
         destruct (exit_status env (Execa "git" [Some "init"])) as [e1|];
         [| run_program;
            destruct (exit_status env (Execa "git" [Some "add"; Some "."])) as [e2|];
            [| run_program;
               destruct (exit_status env (Execa "git" (Some "commit" :: _))) as [e3|]]]];
      cbn [fst snd trace availableCommands];
      (split; [reflexivity |]);
      eexists; (split; [rewrite <- !app_assoc; reflexivity | reflexivity]). }
  cbv zeta. destruct (Hone s) as [Htable Hevs].
  split; [exact Htable |]. split; [exact Hevs |].
  destruct (Hone (showCommandsList env s).2) as [Htable' _].
  now rewrite Htable', Htable, <- app_assoc.
Qed.

(** ** The paths of [fetchTemplate] *)

Section FetchPaths.

Variable env : Env.

(** The three ways a run of [fetchTemplate] can go. *)
Lemma fetchTemplate_cases (template : string) (s : State) :
  (exists e,
     exit_status env probe = Some e /\
     fetchTemplate env template s
     = (Exited 1,
        add_events [Run probe; Report (InstallationMissing "git help -g")] s)) \/
  (exists err,
     exit_status env probe = None /\
     exit_status env (clone_command template (projectName s)) = Some err /\
     fetchTemplate env template s
     = (Thrown err,
        add_events [ Run probe;
                     SpinnerStart "Fetching the boilerplate template";
                     Run (clone_command template (projectName s));
                     SpinnerFail "Something went wrong" ]
          (with_files (cloned env template (projectName s) s) s))) \/
  (fetch_succeeds env template (projectName s) /\
   fetchTemplate env template s
   = after_fetch env template (projectName s) (fetched env template s)).
Proof.
  destruct (exit_status env probe) as [e|] eqn:Hprobe.
  - left. exists e. split; [reflexivity |].
    exact (fetchTemplate_no_client env template e s Hprobe).
  - destruct (exit_status env (clone_command template (projectName s)))
      as [err|] eqn:Hclone.
    + right. left. exists err. split; [reflexivity |]. split; [reflexivity |].
      exact (fetchTemplate_clone_failed env template err s Hprobe Hclone).
    + right. right. split; [now split |].
      exact (fetchTemplate_fetched env template s Hprobe Hclone).
Qed.

Lemma fetched_added (template : string) (s : State) :
  added s (fetched env template s)
    [ Run probe;
      SpinnerStart "Fetching the boilerplate template";
      Run (clone_command template (projectName s));
      SpinnerStop;
      Write (mevn_json (projectName s))
        (JsArray.join_list (String LF EmptyString) (projectConfig s)) ].
Proof. destruct s. reflexivity. Qed.

Lemma added_trans (s1 s2 s3 : State) (evs evs' : list event) :
  added s1 s2 evs -> added s2 s3 evs' -> added s1 s3 (evs ++ evs').
Proof. unfold added. intros H1 H2. now rewrite H2, H1, app_assoc. Qed.

Lemma after_fetch_emitted (template name : string) :
  emits (fetch_emitted name) (after_fetch env template name).
Proof. apply emits_after_fetch; intros; constructor. Qed.

(** Every event of a run of [fetchTemplate] is one of [fetch_emitted]. *)
Lemma fetchTemplate_emitted (template : string) (s : State) :
  exists evs,
    added s (fetchTemplate env template s).2 evs /\
    Forall (fetch_emitted (projectName s)) evs.
Proof.
  destruct (fetchTemplate_cases template s)
    as [(e & _ & ->) | [(err & _ & _ & ->) | (_ & ->)]].
  - eexists. split; [reflexivity | repeat constructor].
  - eexists. split; [reflexivity | repeat constructor].
  - destruct (after_fetch_emitted template (projectName s) (fetched env template s))
      as (evs & Hadd & Hall).
    eexists. split; [exact (added_trans _ _ _ _ _ (fetched_added template s) Hadd) |].
    apply Forall_app. split; [repeat constructor | exact Hall].
Qed.

Lemma keeps_after_fetch_other (p template name : string) :
  p <> mevn_json name -> p <> nuxt_config_js name ->
  keeps p (after_fetch env template name).
Proof.
  intros H1 H2. unfold after_fetch.
  apply keeps_bind; [| intros _; apply keeps_showCommandsList].
  apply keeps_when. apply keeps_bind.
  - now apply keeps_requirePwa_step.
  - intros _. now apply keeps_mode_step.
Qed.

(** *** The two variables are assigned by [initializeProject] only *)

Lemma stable_ret {A} (a : A) : stable (ret a).
Proof. intros s. reflexivity. Qed.

Lemma stable_throw {A} (e : error) : stable (@throw A e).
Proof. intros s. reflexivity. Qed.

Lemma stable_exit {A} (c : Z) : stable (@exit A c).
Proof. intros s. reflexivity. Qed.

Lemma stable_emit (e : event) : stable (emit e).
Proof. intros s. reflexivity. Qed.

Lemma stable_gets {A} (f : State -> A) : stable (gets f).
Proof. intros s. reflexivity. Qed.

Lemma stable_set_fs (f : gmap string string) : stable (set_fs f).
Proof. intros s. reflexivity. Qed.

Lemma stable_set_availableCommands t : stable (set_availableCommands t).
Proof. intros s. reflexivity. Qed.

Lemma stable_bind {A B} (m : M A) (k : A -> M B) :
  stable m -> (forall a, stable (k a)) -> stable (bind m k).
Proof.
  intros Hm Hk s. unfold bind. specialize (Hm s).
  destruct (m s) as [[a | e | c] s']; cbn [snd] in *; try exact Hm.
  now rewrite Hk.
Qed.

Lemma stable_try_catch {A} (m : M A) (h : error -> M A) :
  stable m -> (forall e, stable (h e)) -> stable (try_catch m h).
Proof.
  intros Hm Hh s. unfold try_catch. specialize (Hm s).
  destruct (m s) as [[a | e | c] s']; cbn [snd] in *; try exact Hm.
  now rewrite Hh.
Qed.

Lemma stable_detach (m : M unit) : stable m -> stable (detach m).
Proof.
  intros Hm s. unfold detach. specialize (Hm s).
  destruct (m s) as [[a | e | c] s']; cbn [snd] in *; exact Hm.
Qed.

Lemma stable_when (c : bool) (m : M unit) : stable m -> stable (when c m).
Proof. intros Hm. destruct c; [exact Hm | apply stable_ret]. Qed.

Lemma stable_run (c : command) : stable (run env c).
Proof.
  unfold run. apply stable_bind; [apply stable_emit |]. intros _.
  destruct (exit_status env c); [apply stable_throw | apply stable_ret].
Qed.

Lemma stable_prompt {A} (name : string) (a : A) : stable (prompt name a).
Proof.
  unfold prompt. apply stable_bind; [apply stable_emit |]. intros _.
  apply stable_ret.
Qed.

Lemma stable_readFileSync (path : string) : stable (readFileSync path).
Proof.
  unfold readFileSync. apply stable_bind; [apply stable_emit |]. intros _.
  apply stable_bind; [apply stable_gets |]. intros files.
  destruct (files !! path); [apply stable_ret | apply stable_throw].
Qed.

Lemma stable_readFileSync_utf8 (path : string) : stable (readFileSync_utf8 path).
Proof.
  unfold readFileSync_utf8. apply stable_bind; [apply stable_readFileSync |].
  intros bytes. apply stable_ret.
Qed.

Lemma stable_writeFileSync (path text : string) : stable (writeFileSync path text).
Proof.
  unfold writeFileSync. apply stable_bind; [apply stable_emit |]. intros _.
  apply stable_bind; [apply stable_gets |]. intros files. apply stable_set_fs.
Qed.

Lemma stable_makeInitialCommit : stable (makeInitialCommit env).
Proof.
  unfold makeInitialCommit.
  apply stable_bind; [apply stable_gets |]. intros name.
  apply stable_bind; [apply stable_emit |]. intros _.
  repeat (apply stable_bind; [apply stable_run |]; intros _).
  apply stable_run.
Qed.

Lemma stable_showCommandsList : stable (showCommandsList env).
Proof.
  unfold showCommandsList, console_log.
  repeat
    (lazymatch goal with
     | |- stable (bind _ _) =>
         apply stable_bind;
         [ first [ apply stable_emit | apply stable_gets
                 | apply stable_set_availableCommands | apply stable_run ]
         | intros ? ]
     end).
  apply stable_detach, stable_makeInitialCommit.
Qed.

Lemma stable_requirePwa_step (name : string) : stable (requirePwa_step env name).
Proof.
  unfold requirePwa_step.
  apply stable_bind; [apply stable_prompt |]. intros pwa.
  apply stable_when. apply stable_bind; [apply stable_readFileSync |]. intros text.
  destruct (Json.parse text) as [[| | |ms] |];
    first [apply stable_throw | apply stable_writeFileSync].
Qed.

Lemma stable_mode_step (name : string) : stable (mode_step env name).
Proof.
  unfold mode_step.
  apply stable_bind; [apply stable_prompt |]. intros mode.
  apply stable_when. apply stable_bind; [apply stable_readFileSync_utf8 |]. intros text.
  apply stable_writeFileSync.
Qed.

Lemma stable_after_fetch (template name : string) :
  stable (after_fetch env template name).
Proof.
  unfold after_fetch.
  apply stable_bind; [| intros _; apply stable_showCommandsList].
  apply stable_when. apply stable_bind; [apply stable_requirePwa_step |].
  intros _. apply stable_mode_step.
Qed.

Lemma stable_fetchTemplate (template : string) : stable (fetchTemplate env template).
Proof.
  intros s.
  destruct (fetchTemplate_cases template s)
    as [(e & _ & ->) | [(err & _ & _ & ->) | (_ & ->)]].
  - now destruct s.
  - now destruct s.
  - rewrite stable_after_fetch. now destruct s.
Qed.

End FetchPaths.

(** ** [fetchTemplate] *)

(** X5: whatever goes wrong, the files [fetchTemplate] itself reads and
    writes (through [fs], as opposed to what its subprocesses do) are
    mevn.json and nuxt.config.js of the project, and no other. *)
Theorem fetchTemplate_touches_two_files (env : Env) (template : string) (s : State) :
  let r := fetchTemplate env template s in
  let name := projectName s in
  exists evs,
    added s r.2 evs /\
    forall e p, In e evs -> touches p e = true ->
                p = mevn_json name \/ p = nuxt_config_js name.
Proof.
  cbv zeta.
  destruct (fetchTemplate_emitted env template s) as (evs & Hadd & Hall).
  exists evs. split; [exact Hadd |].
  intros e p Hin Htouch.
  pose proof (proj1 (List.Forall_forall _ _) Hall e Hin) as He.
  destruct He; cbn [touches] in Htouch; try discriminate Htouch;
    apply String.eqb_eq in Htouch; subst p; tauto.
Qed.



(** X7: for a template other than nuxt, once the clone succeeded
    [fetchTemplate] asks nothing, reads no file and writes exactly one, the
    mevn.json made of the lines of [projectConfig] joined by line feeds. *)
Theorem fetchTemplate_other_templates (env : Env) (template : string) (s : State) :
  template <> "nuxt" ->
  fetch_succeeds env template (projectName s) ->
  exists evs,
    added s (fetchTemplate env template s).2 evs /\
    List.filter is_write evs
    = [ Write (mevn_json (projectName s))
          (JsArray.join_list (String LF EmptyString) (projectConfig s)) ] /\
    occurrences is_prompt evs = 0%nat /\
    occurrences is_read evs = 0%nat.
Proof.
  intros Hother [Hprobe Hclone].
  rewrite (fetchTemplate_fetched env template s Hprobe Hclone).
  fold (after_fetch env template (projectName s)).
  rewrite after_fetch_other by exact Hother.
  set (silent := fun e => is_write e = false /\ is_prompt e = false /\ is_read e = false).
  destruct (emits_showCommandsList env silent) with (s := fetched env template s)
    as (evs & Hadd & Hall); try (intros; repeat split; reflexivity).
  assert (Hw : List.filter is_write evs = []).
  { clear Hadd. induction Hall as [|x l [Hx _] _ IH]; [reflexivity |].
    cbn [List.filter]. now rewrite Hx. }
  eexists. split; [exact (added_trans _ _ _ _ _ (fetched_added env template s) Hadd) |].
  rewrite List.filter_app, Hw, !occurrences_app.
  rewrite (occurrences_none is_prompt evs), (occurrences_none is_read evs);
    try (eapply Forall_impl; [exact Hall | intros x (_ & H1 & H2); assumption]).
  repeat split.
Qed.

Lemma fetchTemplate_other_templates_witness :
  exists evs,
    added (prepared (sample_env sample_argv ChBasic false SPA) "my-app" initial_state)
      (fetchTemplate (sample_env sample_argv ChBasic false SPA) "basic"
         (prepared (sample_env sample_argv ChBasic false SPA) "my-app"
            initial_state)).2 evs /\
    occurrences is_prompt evs = 0%nat.
Proof.
  destruct (fetchTemplate_other_templates (sample_env sample_argv ChBasic false SPA)
              "basic"
              (prepared (sample_env sample_argv ChBasic false SPA) "my-app"
                 initial_state))
    as (evs & Hadd & _ & Hprompt & _).
  - discriminate.
  - split; reflexivity.
  - exists evs. split; [exact Hadd | exact Hprompt].
Defined.

(** X8: when the mode is Universal and the clone has no nuxt.config.js,
    [fetchTemplate] rejects with the error of the read, after mevn.json was
    written; the finalizer does not run, so the history of the clone is not
    removed and no initial commit is made. *)
Theorem fetchTemplate_missing_nuxt_config (env : Env) (s : State) :
  fetch_succeeds env "nuxt" (projectName s) ->
  answer_mode env = Universal ->
  (answer_requirePwaSupport env = true ->
     exists ms,
       Json.parse (JsArray.join_list (String LF EmptyString) (projectConfig s))
       = Some (Json.JObj ms)) ->
  cloned env "nuxt" (projectName s) s !! nuxt_config_js (projectName s) = None ->
  let r := fetchTemplate env "nuxt" s in
  r.1 = Thrown (ENOENT (nuxt_config_js (projectName s))) /\
  is_Some (fs r.2 !! mevn_json (projectName s)) /\
  exists evs,
    added s r.2 evs /\
    occurrences finalizer_event evs = 0%nat /\
    last evs = Some (Read (nuxt_config_js (projectName s))).
Proof.
  intros [Hprobe Hclone] Hmode Hparse Hmissing. cbv zeta.
  rewrite (fetchTemplate_fetched env "nuxt" s Hprobe Hclone).
  fold (after_fetch env "nuxt" (projectName s)). rewrite after_fetch_nuxt.
  set (name := projectName s) in *.
  set (s0 := fetched env "nuxt" s).
  assert (Hmevn0 : fs s0 !! mevn_json name
                   = Some (JsArray.join_list (String LF EmptyString) (projectConfig s))).
  { subst s0 name. destruct s. cbn. apply lookup_insert_eq. }
  assert (Hnuxt0 : fs s0 !! nuxt_config_js name = None).
  { subst s0 name. destruct s. cbn in *.
    rewrite lookup_insert_ne; [exact Hmissing | apply mevn_json_not_nuxt_config]. }
  assert (Hadd0 : added s s0 _) by exact (fetched_added env "nuxt" s).
  destruct (answer_requirePwaSupport env) eqn:Hpwa.
  - destruct (Hparse eq_refl) as [ms Hms].
    rewrite (bind_done _ _ _ _ _
               (requirePwa_step_yes env name _ ms s0 Hpwa Hmevn0 Hms)).
    erewrite bind_thrown; [| apply mode_step_missing; [exact Hmode |]].
    + split; [reflexivity |]. split.
      * destruct s0. cbn. rewrite lookup_insert_eq. eauto.
      * eexists. split.
        -- unfold added in *. destruct s0. cbn in *. rewrite Hadd0.
           rewrite <- !app_assoc. reflexivity.
        -- split; reflexivity.
    + destruct s0. cbn in *.
      rewrite lookup_insert_ne; [exact Hnuxt0 | apply mevn_json_not_nuxt_config].
  - rewrite (bind_done _ _ _ _ _ (requirePwa_step_no env name s0 Hpwa)).
    erewrite bind_thrown; [| apply mode_step_missing; [exact Hmode |]].
    + split; [reflexivity |]. split.
      * destruct s0. cbn in *. rewrite Hmevn0. eauto.
      * eexists. split.
        -- unfold added in *. destruct s0. cbn in *. rewrite Hadd0.
           rewrite <- !app_assoc. reflexivity.
        -- split; reflexivity.
    + destruct s0. cbn in *. exact Hnuxt0.
Qed.

Lemma fetchTemplate_missing_nuxt_config_witness :
  (fetchTemplate bare_env "nuxt" (prepared bare_env "my-app" initial_state)).1
  = Thrown (ENOENT (nuxt_config_js "my-app")).
Proof.
  apply (fetchTemplate_missing_nuxt_config bare_env
           (prepared bare_env "my-app" initial_state)).
  - split; reflexivity.
  - reflexivity.
  - discriminate.
  - reflexivity.
Defined.

(** ** [initializeProject] *)

Lemma detach_added (m : M unit) (s : State) :
  exists extra,
    added (m s).2 (detach m s).2 extra /\
    Forall (fun e => is_unhandled e = true) extra.
Proof.
  unfold detach. destruct (m s) as [[a | e | c] s'].
  - exists []. split; [unfold added; cbn; now rewrite app_nil_r | constructor].
  - exists [UnhandledRejection e]. split; [reflexivity | repeat constructor].
  - exists []. split; [unfold added; cbn; now rewrite app_nil_r | constructor].
Qed.

Lemma hasMultipleProjectNameArgs_stray (env : Env) :
  hasMultipleProjectNameArgs env = true <-> stray_argument env.
Proof.
  unfold hasMultipleProjectNameArgs, stray_argument. split.
  - destruct (argv env !! 4%nat) as [a|]; [| discriminate].
    intros H. apply andb_true_iff in H as [Htruthy Hdash].
    exists a. repeat split.
    + intros ->. discriminate Htruthy.
    + now apply negb_true_iff in Hdash.
  - intros (a & -> & Hne & Hdash). rewrite Hdash.
    destruct a; [congruence | reflexivity].
Qed.

(** X9: the stray-argument message is reported exactly when the argument at
    position 4 is there, is not empty and does not start with a dash.  An
    argument at a later position is never looked at, and neither is a flag
    or an empty string at position 4. *)
Theorem stray_reported_iff (env : Env) (appName : string) (s : State) :
  exists evs,
    added s (initializeProject env appName s).2 evs /\
    (In (Report StrayArgs) evs <-> stray_argument env).
Proof.
  destruct (hasMultipleProjectNameArgs env) eqn:Hstray.
  - exists [ Banner "Mevn CLI" "Light speed setup for MEVN stack based apps.";
             Report StrayArgs ].
    split.
    + destruct s as [ac pn pc f tr]. unfold initializeProject. rewrite Hstray.
      run_program. now rewrite <- app_assoc.
    + split; [intros _; now apply hasMultipleProjectNameArgs_stray |].
      intros _. right. now left.
  - assert (Hno : ~ stray_argument env).
    { intros H. apply hasMultipleProjectNameArgs_stray in H. congruence. }
    destruct (validForNewPackages env appName) eqn:Hvalid;
      [destruct (existsSync env appName) eqn:Hexists |].
    + exists [ Banner "Mevn CLI" "Light speed setup for MEVN stack based apps.";
               Exists appName; Report (DirectoryExistsInPath appName) ].
      split.
      * destruct s as [ac pn pc f tr]. unfold initializeProject.
        rewrite Hstray, Hvalid. run_program. rewrite Hexists. run_program.
        now rewrite <- !app_assoc.
      * split; [| tauto]. intros [H | [H | [H | []]]]; discriminate H.
    + rewrite initializeProject_prepared by (repeat split; assumption).
      set (key := canonical_key (answer_template env)).
      destruct (fetchTemplate_emitted env key (prepared env appName s))
        as (evs & Hadd & Hall).
      destruct (detach_added (fetchTemplate env key) (prepared env appName s))
        as (extra & Hextra & Hun).
      exists ([ Banner "Mevn CLI" "Light speed setup for MEVN stack based apps.";
                Exists appName; Prompt "template" ] ++ evs ++ extra).
      split.
      * unfold added in *. rewrite Hextra, Hadd. destruct s. cbn.
        now rewrite <- !app_assoc.
      * split; [| tauto]. intros Hin. exfalso.
        apply in_app_or in Hin as [Hin | Hin];
          [destruct Hin as [H | [H | [H | []]]]; discriminate H |].
        apply in_app_or in Hin as [Hin | Hin].
        -- pose proof (proj1 (List.Forall_forall _ _) Hall _ Hin) as He.
           inversion He.
        -- pose proof (proj1 (List.Forall_forall _ _) Hun _ Hin) as He.
           discriminate He.
    + exists [ Banner "Mevn CLI" "Light speed setup for MEVN stack based apps.";
               Report (InvalidProjectName appName) ].
      split.
      * destruct s as [ac pn pc f tr]. unfold initializeProject.
        rewrite Hstray, Hvalid. run_program. now rewrite <- !app_assoc.
      * split; [| tauto]. intros [H | [H | []]]; discriminate H.
Qed.

(** X10: for each of the four choices the clone is started with the URL
    the table holds for the canonical key of the choice, never with an
    undefined one; the label Nuxt-js itself is not a key of the table. *)
Theorem initializeProject_clone_url (env : Env) (appName : string) (s : State) :
  passes_validation env appName ->
  exit_status env probe = None ->
  exists url,
    property boilerplate (canonical_key (answer_template env)) = Some url /\
    In (Run (Execa "git" [Some "clone"; Some url; Some appName]))
       (trace (initializeProject env appName s).2) /\
    property boilerplate (template_label ChNuxtJs) = None.
Proof.
  intros Hvalid Hprobe.
  set (key := canonical_key (answer_template env)).
  assert (Hurl : exists url, property boilerplate key = Some url)
    by (subst key; destruct (answer_template env); eexists; reflexivity).
  destruct Hurl as [url Hurl]. exists url.
  split; [exact Hurl |]. split; [| reflexivity].
  rewrite initializeProject_prepared by exact Hvalid. fold key.
  destruct (detach_added (fetchTemplate env key) (prepared env appName s))
    as (extra & Hextra & _).
  rewrite Hextra. apply in_or_app. left.
  assert (Hclone : clone_command key appName
                   = Execa "git" [Some "clone"; Some url; Some appName])
    by (unfold clone_command; now rewrite Hurl).
  destruct (fetchTemplate_cases env key (prepared env appName s))
    as [(e & Hp & _) | [(err & _ & _ & ->) | (_ & ->)]].
  - congruence.
  - destruct s. cbn. rewrite Hclone. apply in_or_app. right. cbn. tauto.
  - destruct (after_fetch_emitted env key appName (fetched env key (prepared env appName s)))
      as (evs & Hadd & _).
    change (projectName (prepared env appName s)) with appName.
    rewrite Hadd. apply in_or_app. left.
    destruct s. cbn. rewrite Hclone. apply in_or_app. right. cbn. tauto.
Qed.

Lemma initializeProject_clone_url_witness :
  exists url,
    property boilerplate "nuxt" = Some url /\
    In (Run (Execa "git" [Some "clone"; Some url; Some "my-app"]))
       (trace (initializeProject (sample_env sample_argv ChNuxtJs false SPA)
                 "my-app" initial_state).2).
Proof.
  destruct (initializeProject_clone_url (sample_env sample_argv ChNuxtJs false SPA)
              "my-app" initial_state) as (url & Hurl & Hin & _).
  - repeat split; reflexivity.
  - reflexivity.
  - exists url. split; [exact Hurl | exact Hin].
Defined.

(** X11: [initializeProject] does not await [fetchTemplate].  When the
    clone fails, the command itself completes normally: the error of the
    clone is left as an unhandled rejection, after the spinner was failed,
    and nothing was written. *)
Theorem initializeProject_swallows_clone_failure (env : Env) (appName : string)
    (err : error) (s : State) :
  passes_validation env appName ->
  exit_status env probe = None ->
  exit_status env (clone_command (canonical_key (answer_template env)) appName)
  = Some err ->
  let key := canonical_key (answer_template env) in
  initializeProject env appName s
  = (Done tt,
     add_events [ Run probe;
                  SpinnerStart "Fetching the boilerplate template";
                  Run (clone_command key appName);
                  SpinnerFail "Something went wrong";
                  UnhandledRejection err ]
       (with_files (cloned env key appName s) (prepared env appName s))).
Proof.
  intros Hvalid Hprobe Hclone key.
  rewrite initializeProject_prepared by exact Hvalid. fold key.
  unfold detach.
  rewrite (fetchTemplate_clone_failed env key err (prepared env appName s) Hprobe Hclone).
  destruct s.
  cbv [emit add_events with_files prepared cloned
       availableCommands projectName projectConfig fs trace].
  now rewrite <- !app_assoc.
Qed.

Lemma initializeProject_swallows_clone_failure_witness :
  (initializeProject offline_env "my-app" initial_state).1 = Done tt.
Proof.
  rewrite (initializeProject_swallows_clone_failure offline_env "my-app"
             (ProcessError 128 "fatal: unable to access") initial_state).
  - reflexivity.
  - repeat split; reflexivity.
  - reflexivity.
  - reflexivity.
Defined.

(** X12: nothing after [initializeProject] assigns [projectName] or
    [projectConfig]: at the end of a run that passed the checks they hold the
    name and the four lines built from the answer, whatever happened in
    between.  In particular the PWA step rewrites the file only: after it the
    file has [isPwa: true] and the lines in memory do not. *)
Theorem projectConfig_not_updated_by_pwa (env : Env) (appName : string) (s : State) :
  passes_validation env appName ->
  let final := (initializeProject env appName s).2 in
  let label := template_label (answer_template env) in
  projectName final = appName /\
  projectConfig final = config_lines appName label /\
  (answer_template env = ChNuxtJs ->
   answer_requirePwaSupport env = true ->
   fetch_succeeds env "nuxt" appName ->
   Json.plain appName = true ->
   (exists text,
      fs final !! mevn_json appName = Some text /\
      member "isPwa" text = Some (Json.JBool true)) /\
   member "isPwa" (JsArray.join_list (String LF EmptyString) (projectConfig final))
   = None).
Proof.
  intros Hvalid final label.
  assert (Hvars : vars final = (appName, config_lines appName label)).
  { subst final. rewrite initializeProject_prepared by exact Hvalid.
    rewrite stable_detach by apply stable_fetchTemplate. now destruct s. }
  injection Hvars as Hname Hconfig.
  split; [exact Hname |]. split; [exact Hconfig |].
  intros Hnuxt Hpwa Hfetch Hplain. split.
  - exists (pwa_text appName "Nuxt-js"). split.
    + subst final. pose proof (final_mevn_json env appName s Hvalid) as Hfinal.
      rewrite Hnuxt, Hpwa in Hfinal. now apply Hfinal.
    + unfold member. now rewrite parse_pwa_text.
  - rewrite Hconfig. subst label. rewrite Hnuxt.
    fold (config_text appName (template_label ChNuxtJs)).
    unfold member. now rewrite parse_config_text.
Qed.

Lemma projectConfig_not_updated_by_pwa_witness :
  member "isPwa"
    (JsArray.join_list (String LF EmptyString)
       (projectConfig
          (initializeProject (sample_env sample_argv ChNuxtJs true SPA)
             "my-app" initial_state).2))
  = None.
Proof.
  destruct (projectConfig_not_updated_by_pwa
              (sample_env sample_argv ChNuxtJs true SPA) "my-app" initial_state)
    as (_ & _ & Hpwa).
  - repeat split; reflexivity.
  - apply Hpwa; [reflexivity | reflexivity | split; reflexivity | reflexivity].
Defined.

(** ** The patch of nuxt.config.js (lines 157-172 of [fetchTemplate]) *)

Section PatchFacts.

Lemma first_match_unique (p : string -> bool) (l : list string) (i j : nat) :
  first_match p l i -> first_match p l j -> i = j.
Proof.
  intros [(x & Hx & Hpx) Hi] [(y & Hy & Hpy) Hj].
  destruct (Nat.lt_trichotomy i j) as [Hlt | [Heq | Hgt]]; [| exact Heq |].
  - specialize (Hj i x Hlt Hx). congruence.
  - specialize (Hi j y Hgt Hy). congruence.
Qed.

Lemma find_none_inv (p : string -> bool) (l : list string) :
  JsArray.find p l = None -> forall x, In x l -> p x = false.
Proof.
  induction l as [|y l IH]; intros Hfind x Hin; [destruct Hin |].
  cbn [JsArray.find] in Hfind. destruct (p y) eqn:Hy; [discriminate |].
  destruct Hin as [<- | Hin]; [exact Hy | now apply IH].
Qed.

Lemma find_some_in (p : string -> bool) (l : list string) (x : string) :
  JsArray.find p l = Some x -> In x l /\ p x = true.
Proof.
  induction l as [|y l IH]; cbn [JsArray.find]; [discriminate |].
  destruct (p y) eqn:Hy.
  - intros [= ->]. split; [now left | exact Hy].
  - intros H. destruct (IH H) as [Hin Hp]. split; [now right | exact Hp].
Qed.

Lemma startsWith_append (p b : string) : JsString.startsWith p (p +:+ b) = true.
Proof.
  induction p as [|c p IH]; [reflexivity |].
  rewrite append_cons. cbn [JsString.startsWith]. now rewrite Ascii.eqb_refl.
Qed.

(** A text in which [p] occurs, wherever, includes [p]. *)
Lemma includes_occurrence (p a b : string) :
  JsString.includes p (a +:+ p +:+ b) = true.
Proof.
  induction a as [|c a IH].
  - rewrite append_nil. destruct (p +:+ b) eqn:Hpb.
    + cbn [JsString.includes]. rewrite <- Hpb, startsWith_append. reflexivity.
    + cbn [JsString.includes]. rewrite <- Hpb, startsWith_append. reflexivity.
  - rewrite append_cons. cbn [JsString.includes]. rewrite IH. apply orb_true_r.
Qed.

Lemma patched_eq (old : string) :
  patched old
  = JsArray.join_list (String LF EmptyString)
      (JsArray.elems
         (JsArray.set (JsArray.of_list (JsString.split LF old))
            (JsArray.indexOf (JsArray.find has_mode (JsString.split LF old))
                             (JsString.split LF old))
            universal_mode_line)).
Proof. reflexivity. Qed.

(** X13: patching is idempotent: the line put in place contains [mode]
    itself and is the first to do so, hence a second patch finds it and
    replaces it by itself. *)
Theorem patched_idempotent (old : string) : patched (patched old) = patched old.
Proof.
  destruct (JsArray.find has_mode (JsString.split LF old)) as [x|] eqn:Hfind.
  - destruct (find_some_in _ _ _ Hfind) as [Hin Hx].
    destruct (patched_first_line old (ex_intro _ x (conj Hin Hx)))
      as (i & [_ Hbefore] & Hlen & Hline & Hothers).
    set (lines' := JsString.split LF (patched old)) in *.
    assert (Hfirst' : first_match has_mode lines' i).
    { split; [exists universal_mode_line; split; [exact Hline | reflexivity] |].
      intros j y Hj Hy. rewrite Hothers in Hy by lia. now apply (Hbefore j). }
    destruct (indexOf_find_first has_mode lines') as (i' & Hi' & Hlt & Hidx).
    { exists universal_mode_line. split; [| reflexivity].
      apply list_elem_of_In. apply list_elem_of_lookup. now exists i. }
    rewrite (first_match_unique _ _ _ _ Hi' Hfirst') in *.
    rewrite (patched_eq (patched old)). fold lines'.
    rewrite Hidx, set_in_range by exact Hlt.
    rewrite list_insert_id by exact Hline.
    subst lines'. apply join_split.
  - assert (Hsame : patched old = old).
    { apply patched_no_line. now apply find_none_inv. }
    now rewrite !Hsame.
Qed.

(** The test is for the four characters [mode] anywhere in a line: for a
    decoded text whose first such line is [a ++ "mode" ++ b], the text
    written is that text with the whole line replaced by the universal-mode
    line. *)
Lemma patched_first_occurrence (before after : list string) (a b : string) :
  Forall (fun l => has_mode l = false /\ has_char LF l = false) before ->
  has_char LF (a +:+ "mode" +:+ b) = false ->
  Forall (fun l => has_char LF l = false) after ->
  patched (JsArray.join_list (String LF EmptyString)
             (before ++ (a +:+ "mode" +:+ b) :: after))
  = JsArray.join_list (String LF EmptyString)
      (before ++ universal_mode_line :: after).
Proof.
  intros Hbefore Hline Hafter.
  set (line := a +:+ "mode" +:+ b) in *.
  set (l := before ++ line :: after).
  assert (Hsplit : JsString.split LF (JsArray.join_list (String LF EmptyString) l) = l).
  { apply split_join.
    - subst l. destruct before; discriminate.
    - subst l. apply Forall_app. split.
      + eapply Forall_impl; [exact Hbefore | intros x [_ H]; exact H].
      + constructor; assumption. }
  assert (Hmode : has_mode line = true) by apply includes_occurrence.
  assert (Hat : l !! length before = Some line).
  { subst l. rewrite lookup_app_r by lia. now rewrite Nat.sub_diag. }
  assert (Hfirst : first_match has_mode l (length before)).
  { split; [exists line; now split |].
    intros j y Hj Hy. subst l. rewrite lookup_app_l in Hy by exact Hj.
    apply list_elem_of_lookup_2 in Hy.
    apply (proj1 (Forall_forall _ _) Hbefore) in Hy. tauto. }
  destruct (indexOf_find_first has_mode l) as (i & Hi & Hlt & Hidx).
  { exists line. split; [| exact Hmode]. subst l. apply in_elt. }
  rewrite (first_match_unique _ _ _ _ Hi Hfirst) in *.
  rewrite patched_eq, Hsplit, Hidx, set_in_range by exact Hlt.
  f_equal. subst l.
  rewrite insert_app_r_alt by lia. now rewrite Nat.sub_diag.
Qed.

(** X14: the mode step tests for the four characters [mode] anywhere in a
    line, inside a longer word or a comment as well.  When nuxt.config.js,
    decoded as UTF-8, is the lines [before], none of which contains [mode],
    then a line [a ++ "mode" ++ b], then the lines [after], the step
    succeeds and leaves as nuxt.config.js the lines [before], the
    universal-mode line, and the lines [after]. *)
Theorem mode_step_replaces_first_occurrence
    (env : Env) (name old : string) (before after : list string) (a b : string)
    (s : State) :
  answer_mode env = Universal ->
  fs s !! nuxt_config_js name = Some old ->
  Utf8.utf8 old
  = JsArray.join_list (String LF EmptyString)
      (before ++ (a +:+ "mode" +:+ b) :: after) ->
  Forall (fun l => has_mode l = false /\ has_char LF l = false) before ->
  has_char LF (a +:+ "mode" +:+ b) = false ->
  Forall (fun l => has_char LF l = false) after ->
  let r := mode_step env name s in
  r.1 = Done tt /\
  fs r.2 !! nuxt_config_js name
  = Some (JsArray.join_list (String LF EmptyString)
            (before ++ universal_mode_line :: after)).
Proof.
  intros Hmode Hfile Htext Hbefore Hline Hafter. cbv zeta.
  rewrite (mode_step_Universal env name old s Hmode Hfile).
  split; [reflexivity |].
  rewrite Htext, (patched_first_occurrence before after a b Hbefore Hline Hafter).
  destruct s. cbv [add_events with_files fs snd]. apply lookup_insert_eq.
Qed.

Lemma mode_step_replaces_first_occurrence_witness :
  let env := sample_env sample_argv ChNuxtJs false Universal in
  let old :=
    JsArray.join_list (String LF EmptyString)
      ["export default {"; "  // " +:+ "mode" +:+ "rn build"; "  mode: 'spa',"; "}"] in
  let r :=
    mode_step env "my-app"
      (with_files {[ nuxt_config_js "my-app" := old ]} initial_state) in
  r.1 = Done tt /\
  fs r.2 !! nuxt_config_js "my-app"
  = Some (JsArray.join_list (String LF EmptyString)
            ["export default {"; universal_mode_line; "  mode: 'spa',"; "}"]).
Proof.
  cbv zeta.
  apply (mode_step_replaces_first_occurrence
           (sample_env sample_argv ChNuxtJs false Universal) "my-app"
           (JsArray.join_list (String LF EmptyString)
              ["export default {"; "  // " +:+ "mode" +:+ "rn build";
               "  mode: 'spa',"; "}"])
           ["export default {"] ["  mode: 'spa',"; "}"] "  // " "rn build").
  - reflexivity.
  - reflexivity.
  - reflexivity.
  - repeat constructor.
  - reflexivity.
  - repeat constructor.
Defined.

End PatchFacts.
